(** * Fuel credit backend: ledger, pump sessions and dispense confirmation

    A shallow embedding of [main.py] and [schemas.py].

    - Python [float] values are IEEE 754 binary64 numbers; they are modelled
      by [spec_float] with precision 53 and [emax] 1024, and the arithmetic
      of the handlers by the corresponding [SpecFloat] operations.
    - The MongoDB collections are lists of documents in insertion order;
      [find_one] returns the first match and [update_one] rewrites the first
      match, as the driver does.
    - A handler is a function from the database to an outcome and a
      database.  An exception keeps the writes made before it was raised:
      the handlers use no transaction.
    - The clock is an argument of each handler: an instant in microseconds
      since the epoch.  The few readings a handler takes during one request
      are taken to be that one instant. *)

From Stdlib Require Import ZArith NArith Bool List String Ascii Lia.
From Stdlib Require Import Permutation.
From Stdlib Require Import DecimalString DecimalZ.
From Stdlib Require Import Floats.SpecFloat.
Import ListNotations.

Local Open Scope Z_scope.

(* ===================================================================== *)
(** ** Python floats *)
(* ===================================================================== *)

Module PyFloat.

Definition prec : Z := 53.
Definition emax : Z := 1024.

Definition float : Type := spec_float.

Definition fadd : float -> float -> float := SFadd prec emax.
Definition fsub : float -> float -> float := SFsub prec emax.
Definition fmul : float -> float -> float := SFmul prec emax.

(** [x / y]; the handlers only divide by a price that passed [if not price],
    so Python's [ZeroDivisionError] is never reached. *)
Definition fdiv : float -> float -> float := SFdiv prec emax.

(** The float of an integer, and the float a decimal literal [n/d] denotes
    (the nearest binary64 number, ties to even). *)
Definition of_Z (n : Z) : float := binary_normalize prec emax n 0 false.
Definition ratio (n d : Z) : float := fdiv (of_Z n) (of_Z d).

Definition zero : float := S754_zero false.
Definition hundred : float := Eval vm_compute in of_Z 100.

(** A literal with two decimals: [cents 2180] is [21.80]. *)
Definition cents (n : Z) : float := fdiv (of_Z n) hundred.

(** Comparison of the values.  Two finite numbers are compared at their
    common exponent, where both are integers, so the result does not depend
    on how a number is represented; on valid operands it is [SFcompare]
    (lemma [fcompare_valid]). *)
Definition fcompare (x y : float) : option comparison :=
  match x, y with
  | S754_nan, _ | _, S754_nan => None
  | S754_infinity s1, S754_infinity s2 =>
      Some (match s1, s2 with
            | true, false => Lt
            | false, true => Gt
            | _, _ => Eq
            end)
  | S754_infinity s, _ => Some (if s then Lt else Gt)
  | _, S754_infinity s => Some (if s then Gt else Lt)
  | S754_zero _, S754_zero _ => Some Eq
  | S754_zero _, S754_finite s _ _ => Some (if s then Gt else Lt)
  | S754_finite s _ _, S754_zero _ => Some (if s then Lt else Gt)
  | S754_finite s1 m1 e1, S754_finite s2 m2 e2 =>
      let ez := Z.min e1 e2 in
      Some (cond_Zopp s1 (Zpos (fst (shl_align m1 e1 ez)))
            ?= cond_Zopp s2 (Zpos (fst (shl_align m2 e2 ez))))
  end.

(** [x < y], [x <= y], [x > y], [x >= y]: all false on NaN. *)
Definition flt (x y : float) : bool :=
  match fcompare x y with Some Lt => true | _ => false end.
Definition fle (x y : float) : bool :=
  match fcompare x y with Some (Lt | Eq) => true | _ => false end.
Definition fgt (x y : float) : bool := flt y x.

(** Truth value of a float: [not x] holds for [0.0] and [-0.0] only. *)
Definition falsy (x : float) : bool :=
  match x with S754_zero _ => true | _ => false end.

(** [n / d] rounded to the nearest integer, ties to even ([0 < d]). *)
Definition half_even (n d : Z) : Z :=
  let q := n / d in
  match 2 * (n mod d) ?= d with
  | Lt => q
  | Gt => q + 1
  | Eq => if Z.even q then q else q + 1
  end.

(** [round(x, 2)].  CPython prints the exact value of [x] with two decimals,
    correctly rounded (ties to even), and reads the digits back as the
    nearest float; infinities and NaN are returned as they are, and the sign
    is kept when the digits are all zero. *)
Definition round2 (x : float) : float :=
  match x with
  | S754_finite s m e =>
      let q := match e with
               | Zneg p => half_even (100 * Zpos m) (Z.pow_pos 2 p)
               | _ => 100 * Zpos m * 2 ^ e
               end in
      match q with
      | Zpos qp => fdiv (S754_finite s qp 0) hundred
      | _ => S754_zero s
      end
  | _ => x
  end.

(** The sign a float carries, when it has one to show. *)
Definition signed (s : bool) (x : float) : Prop :=
  match x with
  | S754_infinity s' | S754_finite s' _ _ => s' = s
  | S754_zero _ | S754_nan => True
  end.

End PyFloat.

Import PyFloat.

Local Open Scope string_scope.

(* ===================================================================== *)
(** ** Documents ([schemas.py]) *)
(* ===================================================================== *)

(** A BSON [ObjectId] is twelve bytes; it is kept as the number they spell. *)
Definition ObjectId : Type := N.

(** An instant: microseconds since the epoch. *)
Definition datetime : Type := Z.

Module Customer.
Record t : Type := {
    name : string;
    phone : string;
    email : option string;
    pin : string;
    balance : float;
    active : bool
  }.
End Customer.

Module CreditEvent.
Record t : Type := {
    customer_id : string;
    amount : float;
    note : option string
  }.
End CreditEvent.

Inductive Status : Type := confirmed | cancelled.

Module FuelTransaction.
Record t : Type := {
    customer_id : string;
    grade : string;
    liters : float;
    price_per_liter : float;
    total : float;
    pump_id : string;
    status : Status;
    receipt_no : option string
  }.
End FuelTransaction.

Module PumpSession.
Record t : Type := {
    token : string;
    customer_id : string;
    pump_id : string;
    expires_at : datetime;
    used : bool
  }.
End PumpSession.

(** A stored document: the fields of its model under the [_id] the store
    gave it, with the two timestamps kept beside them. *)
Record Doc (M : Type) : Type := {
  _id : ObjectId;
  fields : M;
  created_at : datetime;
  updated_at : datetime
}.
Arguments _id {M} _.
Arguments fields {M} _.
Arguments created_at {M} _.
Arguments updated_at {M} _.
Arguments Build_Doc {M} _ _ _ _.

(** [{"$set": {..., "updated_at": now}}] on one document. *)
Definition set_fields {M : Type} (f : M -> M) (now : datetime) (d : Doc M) : Doc M :=
  {| _id := _id d; fields := f (fields d);
     created_at := created_at d; updated_at := now |}.

(* ===================================================================== *)
(** ** The store *)
(* ===================================================================== *)

(** Modelled from the spec: [database.py] ([db], [create_document]) is not
    among the sources.  The four collections hold the persisted records of
    the data model, "the system's only durable state"; [next_id] is the
    source of the identities the store gives to new records. *)
Record Database : Type := {
  customer : list (Doc Customer.t);
  creditevent : list (Doc CreditEvent.t);
  fueltransaction : list (Doc FuelTransaction.t);
  pumpsession : list (Doc PumpSession.t);
  next_id : ObjectId
}.

Definition empty_db : Database :=
  {| customer := []; creditevent := []; fueltransaction := [];
     pumpsession := []; next_id := 0%N |}.

(** [collection.find_one(filter)]: the first matching document. *)
Definition find_one {M : Type} (filter : Doc M -> bool) (c : list (Doc M))
  : option (Doc M) :=
  List.find filter c.

(** [collection.update_one(filter, {"$set": ...})]: the first matching
    document is rewritten, the others are left alone. *)
Fixpoint update_one {M : Type} (filter : Doc M -> bool) (upd : Doc M -> Doc M)
    (c : list (Doc M)) : list (Doc M) :=
  match c with
  | [] => []
  | d :: rest =>
      if filter d then upd d :: rest else d :: update_one filter upd rest
  end.

Definition by_id {M : Type} (oid : ObjectId) (d : Doc M) : bool :=
  N.eqb (_id d) oid.

Definition by_token (tok : string) (d : Doc PumpSession.t) : bool :=
  String.eqb (PumpSession.token (fields d)) tok.

(* ===================================================================== *)
(** ** Outcomes and handlers *)
(* ===================================================================== *)

(** What a handler can raise: FastAPI's [HTTPException], or the
    [ValidationError] of a model whose field constraints fail (the names of
    the failing fields, in the order of the model). *)
Inductive Exn : Type :=
  | HTTPException (status_code : Z) (detail : string)
  | ValidationError (model : string) (failing : list string).

Inductive Outcome (A : Type) : Type :=
  | Return (a : A)
  | Raise (e : Exn).
Arguments Return {A} a.
Arguments Raise {A} e.

Definition Handler (A : Type) : Type := Database -> Outcome A * Database.

Definition ret {A : Type} (a : A) : Handler A := fun db => (Return a, db).

Definition raise {A : Type} (e : Exn) : Handler A := fun db => (Raise e, db).

Definition bind {A B : Type} (h : Handler A) (k : A -> Handler B) : Handler B :=
  fun db =>
    match h db with
    | (Return a, db') => k a db'
    | (Raise e, db') => (Raise e, db')
    end.

Definition get {A : Type} (proj : Database -> A) : Handler A :=
  fun db => (Return (proj db), db).

Definition modify (f : Database -> Database) : Handler unit :=
  fun db => (Return tt, f db).

Declare Scope handler_scope.
Delimit Scope handler_scope with handler.
Notation "x <- h ;; k" := (bind h (fun x => k))
  (at level 61, h at next level, right associativity) : handler_scope.
Notation "h ;; k" := (bind h (fun _ => k))
  (at level 61, right associativity) : handler_scope.
Local Open Scope handler_scope.

(** The named errors of the protocol, as the handlers raise them. *)
Definition InvalidId : Exn := HTTPException 400 "Invalid id format".
Definition NotFound : Exn := HTTPException 404 "Customer not found".
Definition InvalidAmount : Exn := HTTPException 400 "Amount must be positive".
Definition InvalidGrade : Exn := HTTPException 400 "Invalid grade".
Definition SessionNotFound : Exn := HTTPException 404 "Session not found".
Definition SessionAlreadyUsed : Exn := HTTPException 400 "Session already used".
Definition SessionExpired : Exn := HTTPException 400 "Session expired".
Definition InsufficientBalance : Exn := HTTPException 400 "Insufficient balance".

(** *** Writes *)

Definition set_customer (c : list (Doc Customer.t)) (db : Database) : Database :=
  {| customer := c; creditevent := creditevent db;
     fueltransaction := fueltransaction db; pumpsession := pumpsession db;
     next_id := next_id db |}.

Definition set_pumpsession (c : list (Doc PumpSession.t)) (db : Database) : Database :=
  {| customer := customer db; creditevent := creditevent db;
     fueltransaction := fueltransaction db; pumpsession := c;
     next_id := next_id db |}.

Definition new_doc {M : Type} (now : datetime) (db : Database) (m : M) : Doc M :=
  {| _id := next_id db; fields := m; created_at := now; updated_at := now |}.

(** Modelled from the spec: [create_document(collection, model)] of
    [database.py], one definition per collection.  The record is appended
    to its collection under a fresh identity, with its creation timestamp,
    and that identity is returned. *)
Definition create_creditevent (now : datetime) (m : CreditEvent.t) : Handler ObjectId :=
  fun db =>
    (Return (next_id db),
     {| customer := customer db;
        creditevent := creditevent db ++ [new_doc now db m];
        fueltransaction := fueltransaction db;
        pumpsession := pumpsession db;
        next_id := N.succ (next_id db) |}).

Definition create_fueltransaction (now : datetime) (m : FuelTransaction.t)
  : Handler ObjectId :=
  fun db =>
    (Return (next_id db),
     {| customer := customer db;
        creditevent := creditevent db;
        fueltransaction := fueltransaction db ++ [new_doc now db m];
        pumpsession := pumpsession db;
        next_id := N.succ (next_id db) |}).

Definition create_pumpsession (now : datetime) (m : PumpSession.t) : Handler ObjectId :=
  fun db =>
    (Return (next_id db),
     {| customer := customer db;
        creditevent := creditevent db;
        fueltransaction := fueltransaction db;
        pumpsession := pumpsession db ++ [new_doc now db m];
        next_id := N.succ (next_id db) |}).

(* ===================================================================== *)
(** ** Identifiers, tokens and receipt numbers *)
(* ===================================================================== *)

Definition hex_digit (c : ascii) : option N :=
  let n := N_of_ascii c in
  if ((48 <=? n) && (n <=? 57))%N then Some (n - 48)%N
  else if ((97 <=? n) && (n <=? 102))%N then Some (n - 87)%N
  else if ((65 <=? n) && (n <=? 70))%N then Some (n - 55)%N
  else None.

Fixpoint hex_value (s : string) (acc : N) : option N :=
  match s with
  | EmptyString => Some acc
  | String c rest =>
      match hex_digit c with
      | Some d => hex_value rest (16 * acc + d)%N
      | None => None
      end
  end.

(** [ObjectId(id_str)]: a string of 24 hexadecimal digits, or [InvalidId]. *)
Definition ObjectId_of_str (id_str : string) : option ObjectId :=
  if Nat.eqb (String.length id_str) 24 then hex_value id_str 0%N else None.

Definition hex_char (n : N) : ascii :=
  ascii_of_N (if (n <? 10)%N then 48 + n else 87 + n)%N.

(** [bytes.hex()]: two lower-case digits per byte. *)
Fixpoint hex (bs : list ascii) : string :=
  match bs with
  | [] => ""
  | b :: rest =>
      String (hex_char (N_of_ascii b / 16)) (String (hex_char (N_of_ascii b mod 16)) (hex rest))
  end.

(** [str(n)] of an integer. *)
Definition str_of_int (n : Z) : string := NilZero.string_of_int (Z.to_int n).

(** [int(datetime.now().timestamp())]: the whole seconds of the instant. *)
Definition timestamp_seconds (now : datetime) : Z := Z.quot now 1000000.

Definition receipt_of (now : datetime) : string :=
  "RX" ++ str_of_int (timestamp_seconds now).

(** [timedelta(minutes=5)]. *)
Definition five_minutes : Z := 300000000.

(* ===================================================================== *)
(** ** Constants and models *)
(* ===================================================================== *)

Definition FUEL_PRICES : list (string * float) :=
  Eval vm_compute in
    [("G91", cents 218); ("G95", cents 233); ("Diesel", cents 166)].

(** [d.get(key)]. *)
Fixpoint dict_get {V : Type} (d : list (string * V)) (key : string) : option V :=
  match d with
  | [] => None
  | (k, v) :: rest => if String.eqb k key then Some v else dict_get rest key
  end.

(** A field declared [gt=0]: the value is refused when [value <= 0]. *)
Definition gt0 (x : float) : bool := negb (fle x zero).

Definition check (ok : bool) (field : string) : list string :=
  if ok then [] else [field].

Definition validated {M : Type} (model : string) (failing : list string) (m : M)
  : Handler M :=
  match failing with
  | [] => ret m
  | _ :: _ => raise (ValidationError model failing)
  end.

(** [CreditEvent(customer_id=..., amount=..., note=...)]. *)
Definition new_CreditEvent (m : CreditEvent.t) : Handler CreditEvent.t :=
  validated "CreditEvent" (check (gt0 (CreditEvent.amount m)) "amount") m.

Definition is_grade (g : string) : bool :=
  String.eqb g "G91" || String.eqb g "G95" || String.eqb g "Diesel".

(** The fields of a transaction that fail their constraints:
    [grade] is one of the three literals, [liters], [price_per_liter] and
    [total] are [gt=0]. *)
Definition failing_fields (m : FuelTransaction.t) : list string :=
  (check (is_grade (FuelTransaction.grade m)) "grade"
   ++ check (gt0 (FuelTransaction.liters m)) "liters"
   ++ check (gt0 (FuelTransaction.price_per_liter m)) "price_per_liter"
   ++ check (gt0 (FuelTransaction.total m)) "total")%list.

(** [FuelTransaction(customer_id=..., ..., receipt_no=...)]. *)
Definition new_FuelTransaction (m : FuelTransaction.t) : Handler FuelTransaction.t :=
  validated "FuelTransaction" (failing_fields m) m.

(** [PumpSession(token=..., ...)]: no field is constrained. *)
Definition new_PumpSession (m : PumpSession.t) : Handler PumpSession.t :=
  validated "PumpSession" [] m.

Definition with_balance (b : float) (c : Customer.t) : Customer.t :=
  {| Customer.name := Customer.name c; Customer.phone := Customer.phone c;
     Customer.email := Customer.email c; Customer.pin := Customer.pin c;
     Customer.balance := b; Customer.active := Customer.active c |}.

Definition with_used (u : bool) (s : PumpSession.t) : PumpSession.t :=
  {| PumpSession.token := PumpSession.token s;
     PumpSession.customer_id := PumpSession.customer_id s;
     PumpSession.pump_id := PumpSession.pump_id s;
     PumpSession.expires_at := PumpSession.expires_at s;
     PumpSession.used := u |}.

(* ===================================================================== *)
(** ** Requests and replies *)
(* ===================================================================== *)

Module TopUpRequest.
Record t : Type := { amount : float; note : option string }.
End TopUpRequest.

Module StartPumpRequest.
Record t : Type := { pump_id : string }.
End StartPumpRequest.

Module CalculateLitersQuery.
Record t : Type := { grade : string }.
End CalculateLitersQuery.

Module ConfirmDispenseRequest.
Record t : Type := { token : string; liters : float; grade : string }.
End ConfirmDispenseRequest.

Module TopUpReply.
Record t : Type := { customer_id : string; balance : float }.
End TopUpReply.

Module StartReply.
Record t : Type := { token : string; expires_in_sec : Z }.
End StartReply.

Module LitersReply.
Record t : Type := { grade : string; price : float; max_liters : float }.
End LitersReply.

Module ConfirmReply.
Record t : Type := {
    customer_id : string;
    new_balance : float;
    total : float;
    grade : string;
    liters : float;
    price_per_liter : float;
    receipt_no : string
  }.
End ConfirmReply.

(* ===================================================================== *)
(** ** The handlers ([main.py]) *)
(* ===================================================================== *)

Definition _oid (id_str : string) : Handler ObjectId :=
  match ObjectId_of_str id_str with
  | Some oid => ret oid
  | None => raise InvalidId
  end.

Definition _customer_or_404 (customer_id : string) : Handler (Doc Customer.t) :=
  oid <- _oid customer_id ;;
  cust <- get (fun db => find_one (by_id oid) (customer db)) ;;
  match cust with
  | None => raise NotFound
  | Some cust => ret cust
  end.

(** [db["customer"].update_one({"_id": cust["_id"]},
      {"$set": {"balance": new_balance, "updated_at": now}})]. *)
Definition write_balance (now : datetime) (cust : Doc Customer.t) (new_balance : float)
  : Handler unit :=
  modify (fun db =>
    set_customer
      (update_one (by_id (_id cust)) (set_fields (with_balance new_balance) now)
         (customer db))
      db).

(** [db["pumpsession"].update_one({"_id": ps["_id"]},
      {"$set": {"used": True, "updated_at": now}})]. *)
Definition mark_used (now : datetime) (ps : Doc PumpSession.t) : Handler unit :=
  modify (fun db =>
    set_pumpsession
      (update_one (by_id (_id ps)) (set_fields (with_used true) now)
         (pumpsession db))
      db).

(** [POST /api/owner/customers/{customer_id}/topup] *)
Definition topup (now : datetime) (customer_id : string) (body : TopUpRequest.t)
  : Handler TopUpReply.t :=
  if fle (TopUpRequest.amount body) zero then raise InvalidAmount
  else
    cust <- _customer_or_404 customer_id ;;
    let new_balance :=
      fadd (Customer.balance (fields cust)) (TopUpRequest.amount body) in
    write_balance now cust new_balance ;;
    ce <- new_CreditEvent
            {| CreditEvent.customer_id := customer_id;
               CreditEvent.amount := TopUpRequest.amount body;
               CreditEvent.note := TopUpRequest.note body |} ;;
    create_creditevent now ce ;;
    ret {| TopUpReply.customer_id := customer_id;
           TopUpReply.balance := new_balance |}.

(** [POST /api/customer/{customer_id}/start-session]; [urandom] stands for
    the six bytes [os.urandom(6)] returns. *)
Definition start_pump_session (now : datetime) (urandom : list ascii)
    (customer_id : string) (body : StartPumpRequest.t) : Handler StartReply.t :=
  _customer_or_404 customer_id ;;
  let token := hex urandom in
  session <- new_PumpSession
               {| PumpSession.token := token;
                  PumpSession.customer_id := customer_id;
                  PumpSession.pump_id := StartPumpRequest.pump_id body;
                  PumpSession.expires_at := now + five_minutes;
                  PumpSession.used := false |} ;;
  create_pumpsession now session ;;
  ret {| StartReply.token := token; StartReply.expires_in_sec := 300 |}.

(** [POST /api/customer/{customer_id}/calc-liters] *)
Definition calc_liters (customer_id : string) (body : CalculateLitersQuery.t)
  : Handler LitersReply.t :=
  cust <- _customer_or_404 customer_id ;;
  match dict_get FUEL_PRICES (CalculateLitersQuery.grade body) with
  | None => raise InvalidGrade
  | Some price =>
      if falsy price then raise InvalidGrade
      else
        let balance := Customer.balance (fields cust) in
        let liters := round2 (fdiv balance price) in
        ret {| LitersReply.grade := CalculateLitersQuery.grade body;
               LitersReply.price := price;
               LitersReply.max_liters := liters |}
  end.

(** [POST /api/dispense/confirm] *)
Definition confirm_dispense (now : datetime) (body : ConfirmDispenseRequest.t)
  : Handler ConfirmReply.t :=
  ps <- get (fun db =>
         find_one (by_token (ConfirmDispenseRequest.token body)) (pumpsession db)) ;;
  match ps with
  | None => raise SessionNotFound
  | Some ps =>
      if PumpSession.used (fields ps) then raise SessionAlreadyUsed
      else if (PumpSession.expires_at (fields ps) <? now)%Z then raise SessionExpired
      else
        cust <- _customer_or_404 (PumpSession.customer_id (fields ps)) ;;
        match dict_get FUEL_PRICES (ConfirmDispenseRequest.grade body) with
        | None => raise InvalidGrade
        | Some price =>
            if falsy price then raise InvalidGrade
            else
              let total := round2 (fmul (ConfirmDispenseRequest.liters body) price) in
              let balance := Customer.balance (fields cust) in
              if fgt total balance then raise InsufficientBalance
              else
                let new_balance := round2 (fsub balance total) in
                write_balance now cust new_balance ;;
                tx <- new_FuelTransaction
                        {| FuelTransaction.customer_id := PumpSession.customer_id (fields ps);
                           FuelTransaction.grade := ConfirmDispenseRequest.grade body;
                           FuelTransaction.liters := ConfirmDispenseRequest.liters body;
                           FuelTransaction.price_per_liter := price;
                           FuelTransaction.total := total;
                           FuelTransaction.pump_id := PumpSession.pump_id (fields ps);
                           FuelTransaction.status := confirmed;
                           FuelTransaction.receipt_no := Some (receipt_of now) |} ;;
                create_fueltransaction now tx ;;
                mark_used now ps ;;
                ret {| ConfirmReply.customer_id := PumpSession.customer_id (fields ps);
                       ConfirmReply.new_balance := new_balance;
                       ConfirmReply.total := total;
                       ConfirmReply.grade := ConfirmDispenseRequest.grade body;
                       ConfirmReply.liters := ConfirmDispenseRequest.liters body;
                       ConfirmReply.price_per_liter := price;
                       ConfirmReply.receipt_no := receipt_of now |}
        end
  end.

(* ===================================================================== *)
(** ** What a confirmation writes *)
(* ===================================================================== *)

(** The session a token selects. *)
Definition session_of (tok : string) (db : Database) : option (Doc PumpSession.t) :=
  find_one (by_token tok) (pumpsession db).

(** The customer a customer id selects, when it is well formed and known. *)
Definition customer_of (customer_id : string) (db : Database) : option (Doc Customer.t) :=
  match ObjectId_of_str customer_id with
  | Some oid => find_one (by_id oid) (customer db)
  | None => None
  end.

(** The error [_customer_or_404] raises for an id that selects nobody. *)
Definition lookup_error (customer_id : string) : Exn :=
  match ObjectId_of_str customer_id with
  | Some _ => NotFound
  | None => InvalidId
  end.

(** The transaction a confirmation records. *)
Definition transaction_of (now : datetime) (body : ConfirmDispenseRequest.t)
    (ps : Doc PumpSession.t) (price total : float) : FuelTransaction.t :=
  {| FuelTransaction.customer_id := PumpSession.customer_id (fields ps);
     FuelTransaction.grade := ConfirmDispenseRequest.grade body;
     FuelTransaction.liters := ConfirmDispenseRequest.liters body;
     FuelTransaction.price_per_liter := price;
     FuelTransaction.total := total;
     FuelTransaction.pump_id := PumpSession.pump_id (fields ps);
     FuelTransaction.status := confirmed;
     FuelTransaction.receipt_no := Some (receipt_of now) |}.

(** The reply of a confirmation. *)
Definition reply_of (now : datetime) (body : ConfirmDispenseRequest.t)
    (ps : Doc PumpSession.t) (price total new_balance : float) : ConfirmReply.t :=
  {| ConfirmReply.customer_id := PumpSession.customer_id (fields ps);
     ConfirmReply.new_balance := new_balance;
     ConfirmReply.total := total;
     ConfirmReply.grade := ConfirmDispenseRequest.grade body;
     ConfirmReply.liters := ConfirmDispenseRequest.liters body;
     ConfirmReply.price_per_liter := price;
     ConfirmReply.receipt_no := receipt_of now |}.

(** The customers after the balance of [cust] was written. *)
Definition balance_written (now : datetime) (cust : Doc Customer.t) (new_balance : float)
    (db : Database) : list (Doc Customer.t) :=
  update_one (by_id (_id cust)) (set_fields (with_balance new_balance) now) (customer db).

(** The sessions after [ps] was marked used. *)
Definition consumed (now : datetime) (ps : Doc PumpSession.t) (db : Database)
  : list (Doc PumpSession.t) :=
  update_one (by_id (_id ps)) (set_fields (with_used true) now) (pumpsession db).

(** The database a confirmation leaves when every step went through. *)
Definition settled (now : datetime) (body : ConfirmDispenseRequest.t)
    (ps : Doc PumpSession.t) (cust : Doc Customer.t) (price total new_balance : float)
    (db : Database) : Database :=
  {| customer := balance_written now cust new_balance db;
     creditevent := creditevent db;
     fueltransaction :=
       fueltransaction db ++ [new_doc now db (transaction_of now body ps price total)];
     pumpsession := consumed now ps db;
     next_id := N.succ (next_id db) |}.

(** The part of [confirm_dispense] that follows its checks: the three
    writes and the reply. *)
Definition settle (now : datetime) (body : ConfirmDispenseRequest.t)
    (ps : Doc PumpSession.t) (cust : Doc Customer.t) (price : float)
    (db : Database) : Outcome ConfirmReply.t * Database :=
  let total := round2 (fmul (ConfirmDispenseRequest.liters body) price) in
  let new_balance := round2 (fsub (Customer.balance (fields cust)) total) in
  match failing_fields (transaction_of now body ps price total) with
  | [] => (Return (reply_of now body ps price total new_balance),
           settled now body ps cust price total new_balance db)
  | f :: fs => (Raise (ValidationError "FuelTransaction" (f :: fs)),
                set_customer (balance_written now cust new_balance db) db)
  end.

(** [confirm_dispense], check by check. *)
Definition confirm_steps (now : datetime) (body : ConfirmDispenseRequest.t)
    (db : Database) : Outcome ConfirmReply.t * Database :=
  match session_of (ConfirmDispenseRequest.token body) db with
  | None => (Raise SessionNotFound, db)
  | Some ps =>
      if PumpSession.used (fields ps) then (Raise SessionAlreadyUsed, db)
      else if (PumpSession.expires_at (fields ps) <? now)%Z then (Raise SessionExpired, db)
      else
        match customer_of (PumpSession.customer_id (fields ps)) db with
        | None => (Raise (lookup_error (PumpSession.customer_id (fields ps))), db)
        | Some cust =>
            match dict_get FUEL_PRICES (ConfirmDispenseRequest.grade body) with
            | None => (Raise InvalidGrade, db)
            | Some price =>
                if fgt (round2 (fmul (ConfirmDispenseRequest.liters body) price))
                     (Customer.balance (fields cust))
                then (Raise InsufficientBalance, db)
                else settle now body ps cust price db
            end
        end
  end.

(* ===================================================================== *)
(** ** Sequences of requests *)
(* ===================================================================== *)

(** The requests of the protocol, each with the instant it is served at. *)
Inductive Request : Type :=
  | TopUp (now : datetime) (customer_id : string) (body : TopUpRequest.t)
  | StartSession (now : datetime) (urandom : list ascii) (customer_id : string)
      (body : StartPumpRequest.t)
  | CalcLiters (customer_id : string) (body : CalculateLitersQuery.t)
  | ConfirmDispense (now : datetime) (body : ConfirmDispenseRequest.t).

(** The database after one request, whatever its outcome. *)
Definition serve (r : Request) (db : Database) : Database :=
  match r with
  | TopUp now customer_id body => snd (topup now customer_id body db)
  | StartSession now urandom customer_id body =>
      snd (start_pump_session now urandom customer_id body db)
  | CalcLiters customer_id body => snd (calc_liters customer_id body db)
  | ConfirmDispense now body => snd (confirm_dispense now body db)
  end.

(** The database after a sequence of requests served one after the other. *)
Definition run (rs : list Request) (db : Database) : Database :=
  fold_left (fun db r => serve r db) rs db.

(** *** Properties of a database *)


(** [balance < 0] is false: the number is [>= 0], or it is NaN. *)
Definition never_negative (x : float) : bool := negb (flt x zero).

(** The balance of a stored customer is never negative. *)
Definition balance_ok (c : Doc Customer.t) : Prop :=
  never_negative (Customer.balance (fields c)) = true.

(** [c'] is the stored customer [c] at a later time: the identity is the
    same, and the balance is not negative if it was not. *)
Definition keeps_sign (c c' : Doc Customer.t) : Prop :=
  _id c' = _id c /\ (balance_ok c -> balance_ok c').

Definition balances (db : Database) : list float :=
  map (fun c => Customer.balance (fields c)) (customer db).

(** The store keeps [_id] unique within a collection and gives out
    identities it has not used before. *)
Definition sessions_wf (db : Database) : Prop :=
  NoDup (map _id (pumpsession db))
  /\ Forall (fun d => (_id d < next_id db)%N) (pumpsession db).

(* ===================================================================== *)
(** ** Example data *)
(* ===================================================================== *)

Definition alice_id : string := "65f0a1b2c3d4e5f601234567".
Definition bob_id : string := "65f0a1b2c3d4e5f601234568".

Definition oid_of (id_str : string) : ObjectId :=
  match ObjectId_of_str id_str with Some oid => oid | None => 0%N end.

Definition account (id_str name phone : string) (balance : float) (active : bool)
  : Doc Customer.t :=
  {| _id := oid_of id_str;
     fields := {| Customer.name := name; Customer.phone := phone;
                  Customer.email := None; Customer.pin := "4321";
                  Customer.balance := balance; Customer.active := active |};
     created_at := 0; updated_at := 0 |}.

(** Alice holds 50.00 and is active; Bob holds 50.00 and is deactivated. *)
Definition demo_db : Database :=
  {| customer := [account alice_id "Alice" "0801" (cents 5000) true;
                  account bob_id "Bob" "0802" (cents 5000) false];
     creditevent := []; fueltransaction := []; pumpsession := [];
     next_id := 0%N |}.

Definition t0 : datetime := 1730000000000000.

Definition bytes_a : list ascii := ["001"; "035"; "069"; "103"; "137"; "171"]%char.
Definition bytes_b : list ascii := ["254"; "220"; "186"; "152"; "118"; "084"]%char.
Definition token_a : string := Eval vm_compute in hex bytes_a.
Definition token_b : string := Eval vm_compute in hex bytes_b.

Definition pump (p : string) : StartPumpRequest.t := {| StartPumpRequest.pump_id := p |}.

Definition dispense (tok grade : string) (liters : float) : ConfirmDispenseRequest.t :=
  {| ConfirmDispenseRequest.token := tok;
     ConfirmDispenseRequest.liters := liters;
     ConfirmDispenseRequest.grade := grade |}.

Definition credit (amount : float) : TopUpRequest.t :=
  {| TopUpRequest.amount := amount; TopUpRequest.note := None |}.

(** Alice has started a session at pump 1 at [t0]. *)
Definition demo_session_db : Database :=
  Eval vm_compute in run [StartSession t0 bytes_a alice_id (pump "pump-1")] demo_db.

(** Alice has started two sessions, at [t0] and one second later. *)
Definition demo_two_sessions_db : Database :=
  Eval vm_compute in
    run [StartSession t0 bytes_a alice_id (pump "pump-1");
         StartSession (t0 + 1000000) bytes_b alice_id (pump "pump-2")] demo_db.



(* ===================================================================== *)
(** ** The other endpoints ([main.py]) *)
(* ===================================================================== *)

(** [n] hexadecimal digits of [v], the most significant first. *)
Fixpoint hex_digits (n : nat) (v : N) : string :=
  match n with
  | O => ""
  | S k => hex_digits k (v / 16) ++ String (hex_char (v mod 16)) ""
  end.

(** [str(oid)]: the twelve bytes of an [ObjectId] as 24 lower-case
    hexadecimal digits. *)
Definition str_of_ObjectId (oid : ObjectId) : string := hex_digits 24 oid.

Module LoginRequest.
Record t : Type := { phone : string; pin : string }.
End LoginRequest.

Module CreateCustomer.
Record t : Type := {
  name : string;
  phone : string;
  email : option string;
  pin : string
}.
End CreateCustomer.

Module LoginReply.
Record t : Type := { customer_id : string; name : string; balance : float }.
End LoginReply.

(** [{"customer_id": new_id}], with the identity [create_document] gave. *)
Module CreateReply.
Record t : Type := { customer_id : ObjectId }.
End CreateReply.

Module BalanceReply.
Record t : Type := { balance : float; name : string }.
End BalanceReply.

(** A document as the listings return it: [{**e, "_id": str(e["_id"])}]. *)
Record Listed (M : Type) : Type := {
  listed_id : string;
  listed_fields : M;
  listed_created_at : datetime;
  listed_updated_at : datetime
}.
Arguments listed_id {M} _.
Arguments listed_fields {M} _.
Arguments listed_created_at {M} _.
Arguments listed_updated_at {M} _.

Definition listed {M : Type} (d : Doc M) : Listed M :=
  {| listed_id := str_of_ObjectId (_id d);
     listed_fields := fields d;
     listed_created_at := created_at d;
     listed_updated_at := updated_at d |}.

(** [Customer(name=..., ..., balance=..., active=...)]: [pin] has from four
    to eight characters, [balance] is [ge=0] (refused when [balance < 0]). *)
Definition new_Customer (m : Customer.t) : Handler Customer.t :=
  validated "Customer"
    (check ((4 <=? String.length (Customer.pin m))%nat
            && (String.length (Customer.pin m) <=? 8)%nat) "pin"
     ++ check (negb (flt (Customer.balance m) zero)) "balance")%list
    m.

(** Modelled from the spec: [create_document("customer", model)] of
    [database.py].  The customer is appended to its collection under a
    fresh identity, with its creation timestamp, and that identity is
    returned. *)
Definition create_customer_document (now : datetime) (m : Customer.t)
  : Handler ObjectId :=
  fun db =>
    (Return (next_id db),
     {| customer := customer db ++ [new_doc now db m];
        creditevent := creditevent db;
        fueltransaction := fueltransaction db;
        pumpsession := pumpsession db;
        next_id := N.succ (next_id db) |}).

Definition by_phone (phone : string) (d : Doc Customer.t) : bool :=
  String.eqb (Customer.phone (fields d)) phone.

(** [{"phone": req.phone, "pin": req.pin, "active": True}]. *)
Definition by_credentials (req : LoginRequest.t) (d : Doc Customer.t) : bool :=
  String.eqb (Customer.phone (fields d)) (LoginRequest.phone req)
  && String.eqb (Customer.pin (fields d)) (LoginRequest.pin req)
  && Bool.eqb (Customer.active (fields d)) true.

Definition InvalidCredentials : Exn := HTTPException 401 "Invalid credentials".
Definition PhoneTaken : Exn :=
  HTTPException 409 "Customer with this phone already exists".

(** [POST /api/auth/login] *)
Definition login (req : LoginRequest.t) : Handler LoginReply.t :=
  user <- get (fun db => find_one (by_credentials req) (customer db)) ;;
  match user with
  | None => raise InvalidCredentials
  | Some user =>
      ret {| LoginReply.customer_id := str_of_ObjectId (_id user);
             LoginReply.name := Customer.name (fields user);
             LoginReply.balance := Customer.balance (fields user) |}
  end.

(** [POST /api/owner/customers] *)
Definition create_customer (now : datetime) (req : CreateCustomer.t)
  : Handler CreateReply.t :=
  exists_ <- get (fun db => find_one (by_phone (CreateCustomer.phone req)) (customer db)) ;;
  match exists_ with
  | Some _ => raise PhoneTaken
  | None =>
      model <- new_Customer
                 {| Customer.name := CreateCustomer.name req;
                    Customer.phone := CreateCustomer.phone req;
                    Customer.email := CreateCustomer.email req;
                    Customer.pin := CreateCustomer.pin req;
                    Customer.balance := zero;
                    Customer.active := true |} ;;
      new_id <- create_customer_document now model ;;
      ret {| CreateReply.customer_id := new_id |}
  end.

(** [GET /api/customer/{customer_id}/balance] *)
Definition get_balance (customer_id : string) : Handler BalanceReply.t :=
  cust <- _customer_or_404 customer_id ;;
  ret {| BalanceReply.balance := Customer.balance (fields cust);
         BalanceReply.name := Customer.name (fields cust) |}.

(** [.sort("created_at", -1)]: the newest first.  Documents with the same
    timestamp keep the order they have in the collection. *)
Fixpoint insert_newest {M : Type} (d : Doc M) (l : list (Doc M)) : list (Doc M) :=
  match l with
  | [] => [d]
  | x :: rest =>
      if (created_at x <=? created_at d)%Z then d :: l
      else x :: insert_newest d rest
  end.

Fixpoint newest_first {M : Type} (l : list (Doc M)) : list (Doc M) :=
  match l with
  | [] => []
  | d :: rest => insert_newest d (newest_first rest)
  end.

Definition by_customer_id (customer_id : string) (d : Doc CreditEvent.t) : bool :=
  String.eqb (CreditEvent.customer_id (fields d)) customer_id.

(** [GET /api/owner/customers/{customer_id}/history] *)
Definition credit_history (customer_id : string)
  : Handler (list (Listed CreditEvent.t)) :=
  events <- get (fun db =>
              newest_first (filter (by_customer_id customer_id) (creditevent db))) ;;
  ret (map listed events).

(** *** Sequences of calls to any endpoint *)

Inductive Call : Type :=
  | Protocol (r : Request)
  | CreateCustomerCall (now : datetime) (req : CreateCustomer.t)
  | LoginCall (req : LoginRequest.t)
  | GetBalance (customer_id : string)
  | CreditHistory (customer_id : string).

Definition serve_call (c : Call) (db : Database) : Database :=
  match c with
  | Protocol r => serve r db
  | CreateCustomerCall now req => snd (create_customer now req db)
  | LoginCall req => snd (login req db)
  | GetBalance customer_id => snd (get_balance customer_id db)
  | CreditHistory customer_id => snd (credit_history customer_id db)
  end.

Definition run_calls (cs : list Call) (db : Database) : Database :=
  fold_left (fun db c => serve_call c db) cs db.

(** *** Properties of stored records *)

(** [l'] is [l] with records added at the end. *)
Definition extends {A : Type} (l l' : list A) : Prop :=
  exists added : list A, l' = (l ++ added)%list.

(** [l'] is [l] with records added at the end, each earlier record [x]
    standing as a record [y] with [R x y]. *)
Definition grows {A : Type} (R : A -> A -> Prop) (l l' : list A) : Prop :=
  exists kept added : list A, l' = (kept ++ added)%list /\ Forall2 R l kept.

(** What [schemas.py] asks of a fuel transaction (a known grade; none of
    [liters], [price_per_liter], [total] is [<= 0]), and the status every
    confirmation writes. *)
Definition transaction_ok (d : Doc FuelTransaction.t) : Prop :=
  is_grade (FuelTransaction.grade (fields d)) = true
  /\ fle (FuelTransaction.liters (fields d)) zero = false
  /\ fle (FuelTransaction.price_per_liter (fields d)) zero = false
  /\ fle (FuelTransaction.total (fields d)) zero = false
  /\ FuelTransaction.status (fields d) = confirmed.

(** What [schemas.py] asks of a credit event: [amount <= 0] is false. *)
Definition creditevent_ok (d : Doc CreditEvent.t) : Prop :=
  fle (CreditEvent.amount (fields d)) zero = false.

(** [s'] is the stored session [s] at a later time: nothing changed but,
    possibly, [used] from false to true. *)
Definition session_later (s s' : Doc PumpSession.t) : Prop :=
  _id s' = _id s
  /\ PumpSession.token (fields s') = PumpSession.token (fields s)
  /\ PumpSession.customer_id (fields s') = PumpSession.customer_id (fields s)
  /\ PumpSession.pump_id (fields s') = PumpSession.pump_id (fields s)
  /\ PumpSession.expires_at (fields s') = PumpSession.expires_at (fields s)
  /\ (PumpSession.used (fields s) = true -> PumpSession.used (fields s') = true).

(** [c'] is the stored customer [c] at a later time: only the balance may
    have changed. *)
Definition customer_later (c c' : Doc Customer.t) : Prop :=
  _id c' = _id c
  /\ Customer.name (fields c') = Customer.name (fields c)
  /\ Customer.phone (fields c') = Customer.phone (fields c)
  /\ Customer.email (fields c') = Customer.email (fields c)
  /\ Customer.pin (fields c') = Customer.pin (fields c)
  /\ Customer.active (fields c') = Customer.active (fields c).

Definition phones (db : Database) : list string :=
  map (fun c => Customer.phone (fields c)) (customer db).


(** The newest first. *)
Fixpoint newest_first_sorted {M : Type} (l : list (Listed M)) : Prop :=
  match l with
  | [] => True
  | x :: rest =>
      Forall (fun y => (listed_created_at y <= listed_created_at x)%Z) rest
      /\ newest_first_sorted rest
  end.

Definition newest_first_docs {M : Type} (l : list (Doc M)) : Prop :=
  newest_first_sorted (map listed l).

(** An identity of twelve bytes. *)
Definition twelve_bytes (oid : ObjectId) : Prop := (oid < 2 ^ 96)%N.

(* ===================================================================== *)
(** ** Signs of float results *)
(* ===================================================================== *)

Section Signs.


Lemma never_negative_signed (x : float) :
  signed false x -> never_negative x = true.
Proof.
  destruct x as [s|s| |s m e]; simpl; intros H; subst; reflexivity.
Qed.

Lemma signed_never_negative (x : float) :
  never_negative x = true -> signed false x.
Proof.
  destruct x as [s|s| |s m e]; simpl; trivial; destruct s; simpl;
    intros H; try discriminate; reflexivity.
Qed.

Lemma binary_round_aux_signed (s : bool) (m e : Z) (l : location) :
  signed s (binary_round_aux prec emax s m e l).
Proof.
  unfold binary_round_aux.
  destruct (shr_fexp prec emax m e l) as [mrs' e'].
  destruct (shr_fexp prec emax _ e' loc_Exact) as [mrs'' e''].
  destruct (shr_m mrs''); simpl; trivial.
  destruct (Z.leb _ _); simpl; reflexivity.
Qed.

Lemma binary_normalize_signed (z e : Z) :
  (0 <= z)%Z -> signed false (binary_normalize prec emax z e false).
Proof.
  intros Hz. destruct z as [|p|p]; simpl; trivial.
  - unfold binary_round.
    destruct (shl_align p e _) as [mz ez]. apply binary_round_aux_signed.
  - lia.
Qed.

Lemma fdiv_signed (s : bool) (m : positive) (e : Z) (m' : positive) (e' : Z) :
  signed s (fdiv (S754_finite s m e) (S754_finite false m' e')).
Proof.
  unfold fdiv, SFdiv.
  destruct (SFdiv_core_binary prec emax (Zpos m) e (Zpos m') e') as [[mz ez] lz].
  replace (xorb s false) with s by (destruct s; reflexivity).
  apply binary_round_aux_signed.
Qed.

Lemma round2_signed (s : bool) (x : float) :
  signed s x -> signed s (round2 x).
Proof.
  destruct x as [s'|s'| |s' m e]; simpl; trivial.
  intros ->.
  destruct (match e with Z0 => _ | Zpos _ => _ | Zneg _ => _ end); simpl; trivial.
  apply fdiv_signed.
Qed.

(** [balance + amount], when [amount <= 0] is false. *)
Lemma fadd_never_negative (b a : float) :
  never_negative b = true -> fle a zero = false ->
  never_negative (fadd b a) = true.
Proof.
  intros Hb Ha. apply never_negative_signed.
  apply signed_never_negative in Hb.
  destruct b as [sb|sb| |sb mb eb], a as [sa|sa| |sa ma ea];
    simpl in Hb; subst;
    try (destruct sa; simpl in Ha; try discriminate);
    try (destruct sb);
    try solve [simpl; trivial].
  unfold fadd, SFadd. apply binary_normalize_signed.
  unfold cond_Zopp. lia.
Qed.

(** [balance - total], when [total > balance] is false. *)
Lemma fsub_never_negative (b t : float) :
  never_negative b = true -> fgt t b = false ->
  never_negative (fsub b t) = true.
Proof.
  intros Hb Ht. apply never_negative_signed.
  apply signed_never_negative in Hb.
  unfold fgt, flt in Ht.
  destruct b as [sb|sb| |sb mb eb], t as [st|st| |st mt et];
    simpl in Hb; subst;
    try (destruct st; simpl in Ht; try discriminate);
    try (destruct sb);
    try solve [simpl; trivial].
  - unfold fsub, SFsub. apply binary_normalize_signed.
    unfold cond_Zopp. lia.
  - unfold fsub, SFsub. apply binary_normalize_signed.
    unfold fcompare, cond_Zopp in Ht. unfold cond_Zopp.
    match type of Ht with
    | context [match ?c with Eq => _ | Lt => _ | Gt => _ end] =>
        destruct c eqn:C
    end; try discriminate.
    + apply Pos.compare_eq_iff in C. lia.
    + apply Pos.compare_gt_iff in C. lia.
Qed.

End Signs.

(* ===================================================================== *)
(** ** Comparison of valid floats *)
(* ===================================================================== *)

Section Comparison.

Lemma digits2_pos_bounds (m : positive) :
  (2 ^ (Zpos (digits2_pos m) - 1) <= Zpos m < 2 ^ Zpos (digits2_pos m))%Z.
Proof.
  induction m as [p IH|p IH|]; cbn [digits2_pos].
  - rewrite Pos2Z.inj_succ.
    replace (Z.succ (Zpos (digits2_pos p)) - 1)%Z
      with (Z.succ (Zpos (digits2_pos p) - 1))%Z by lia.
    rewrite !Z.pow_succ_r by lia. lia.
  - rewrite Pos2Z.inj_succ.
    replace (Z.succ (Zpos (digits2_pos p)) - 1)%Z
      with (Z.succ (Zpos (digits2_pos p) - 1))%Z by lia.
    rewrite !Z.pow_succ_r by lia. lia.
  - simpl. lia.
Qed.

Lemma iter_xO (m d : positive) :
  Zpos (Pos.iter xO m d) = (Zpos m * 2 ^ Zpos d)%Z.
Proof.
  revert m. induction d as [|d IH] using Pos.peano_ind; intros m.
  - simpl. lia.
  - rewrite Pos.iter_succ, Pos2Z.inj_succ, Z.pow_succ_r by lia.
    rewrite Pos2Z.inj_xO, IH. lia.
Qed.

Lemma shl_align_value (m : positive) (e ez : Z) :
  (ez <= e)%Z ->
  Zpos (fst (shl_align m e ez)) = (Zpos m * 2 ^ (e - ez))%Z.
Proof.
  intros Hle. unfold shl_align.
  destruct (ez - e)%Z as [|d|d] eqn:Hd; cbn [fst].
  - replace (e - ez)%Z with 0%Z by lia. simpl. lia.
  - lia.
  - rewrite iter_xO. replace (e - ez)%Z with (Zpos d) by lia. reflexivity.
Qed.

(** A canonical mantissa has at most 53 bits, and exactly 53 above the
    smallest exponent. *)
Lemma canonical_bits (m : positive) (e : Z) :
  canonical_mantissa prec emax m e = true ->
  (Zpos m < 2 ^ 53)%Z /\ (emin prec emax <= e)%Z
  /\ ((emin prec emax < e)%Z -> (2 ^ 52 <= Zpos m)%Z).
Proof.
  unfold canonical_mantissa, fexp, prec. intros H. apply Z.eqb_eq in H.
  pose proof (digits2_pos_bounds m) as [Hlo Hhi].
  split; [|split].
  - apply Z.lt_le_trans with (1 := Hhi).
    apply Z.pow_le_mono_r; lia.
  - lia.
  - intros He.
    replace (Zpos (digits2_pos m)) with 53%Z in Hlo by lia. exact Hlo.
Qed.

Lemma aligned_compare (m1 m2 : positive) (e1 e2 : Z) :
  canonical_mantissa prec emax m1 e1 = true ->
  canonical_mantissa prec emax m2 e2 = true ->
  (Zpos (fst (shl_align m1 e1 (Z.min e1 e2)))
   ?= Zpos (fst (shl_align m2 e2 (Z.min e1 e2))))%Z
  = match (e1 ?= e2)%Z with
    | Lt => Lt
    | Gt => Gt
    | Eq => (m1 ?= m2)%positive
    end.
Proof.
  intros H1 H2.
  destruct (canonical_bits _ _ H1) as (Hm1 & He1 & Hn1).
  destruct (canonical_bits _ _ H2) as (Hm2 & He2 & Hn2).
  rewrite !shl_align_value by lia.
  destruct (Z.compare_spec e1 e2) as [E|E|E].
  - subst e2. rewrite Z.min_id, Z.sub_diag. simpl. rewrite !Pos.mul_1_r.
    reflexivity.
  - rewrite Z.min_l by lia. rewrite Z.sub_diag, Z.mul_1_r.
    apply Z.compare_lt_iff.
    assert (2 ^ 1 <= 2 ^ (e2 - e1))%Z by (apply Z.pow_le_mono_r; lia).
    assert (2 ^ 52 <= Zpos m2)%Z by (apply Hn2; lia).
    change (2 ^ 53)%Z with (2 ^ 52 * 2 ^ 1)%Z in Hm1. nia.
  - rewrite Z.min_r by lia. rewrite Z.sub_diag, Z.mul_1_r.
    apply Z.compare_gt_iff.
    assert (2 ^ 1 <= 2 ^ (e1 - e2))%Z by (apply Z.pow_le_mono_r; lia).
    assert (2 ^ 52 <= Zpos m1)%Z by (apply Hn1; lia).
    change (2 ^ 53)%Z with (2 ^ 52 * 2 ^ 1)%Z in Hm2. nia.
Qed.

(** On valid binary64 operands, [fcompare] is [SFcompare]. *)
Lemma fcompare_valid (x y : float) :
  valid_binary prec emax x = true -> valid_binary prec emax y = true ->
  fcompare x y = SFcompare x y.
Proof.
  destruct x as [sx|sx| |sx mx ex], y as [sy|sy| |sy my ey];
    try reflexivity; try (destruct sx, sy; reflexivity).
  unfold valid_binary, bounded. intros Hx Hy.
  apply andb_prop in Hx, Hy. destruct Hx as [Hx _], Hy as [Hy _].
  unfold fcompare, SFcompare, cond_Zopp.
  pose proof (aligned_compare mx my ex ey Hx Hy) as H.
  destruct sx, sy; cbn [Z.opp]; try reflexivity.
  - change (Some (CompOpp (Zpos (fst (shl_align mx ex (Z.min ex ey)))
                           ?= Zpos (fst (shl_align my ey (Z.min ex ey))))%Z)
            = Some (match (ex ?= ey)%Z with
                    | Lt => Gt
                    | Gt => Lt
                    | Eq => CompOpp (mx ?= my)%positive
                    end)).
    rewrite H. destruct (ex ?= ey)%Z; reflexivity.
  - change (Some (Zpos (fst (shl_align mx ex (Z.min ex ey)))
                  ?= Zpos (fst (shl_align my ey (Z.min ex ey))))%Z
            = Some (match (ex ?= ey)%Z with
                    | Lt => Lt
                    | Gt => Gt
                    | Eq => (mx ?= my)%positive
                    end)).
    rewrite H. reflexivity.
Qed.

End Comparison.

(* ===================================================================== *)
(** ** Collections *)
(* ===================================================================== *)

Section Collections.

Context {M : Type}.
Implicit Types (c : list (Doc M)) (d : Doc M).

Lemma find_one_In filter c d :
  find_one filter c = Some d -> In d c /\ filter d = true.
Proof. apply find_some. Qed.

Lemma update_one_ids filter upd c :
  (forall d, _id (upd d) = _id d) ->
  map _id (update_one filter upd c) = map _id c.
Proof.
  intros Hid. induction c as [|d rest IH]; simpl; [reflexivity|].
  destruct (filter d); simpl; [rewrite Hid | rewrite IH]; reflexivity.
Qed.

Lemma find_one_update_one filter upd c d :
  find_one filter c = Some d -> filter (upd d) = true ->
  find_one filter (update_one filter upd c) = Some (upd d).
Proof.
  unfold find_one.
  induction c as [|x rest IH]; simpl; [discriminate|]. intros Hfind Hupd.
  destruct (filter x) eqn:Hx.
  - injection Hfind as ->. simpl. rewrite Hupd. reflexivity.
  - simpl. rewrite Hx. apply IH; assumption.
Qed.

Lemma update_one_Forall2 (R : Doc M -> Doc M -> Prop) filter upd c :
  (forall d, R d d) ->
  (forall d, find_one filter c = Some d -> R d (upd d)) ->
  Forall2 R c (update_one filter upd c).
Proof.
  unfold find_one. intros Hrefl.
  induction c as [|x rest IH]; simpl; intros Hupd; [constructor|].
  destruct (filter x) eqn:Hx.
  - constructor; [apply Hupd; reflexivity|].
    clear - Hrefl. induction rest; constructor; auto.
  - constructor; [apply Hrefl | apply IH, Hupd].
Qed.

Lemma by_id_eq (oid : ObjectId) d : by_id oid d = true -> _id d = oid.
Proof. unfold by_id. apply N.eqb_eq. Qed.

End Collections.

Lemma set_fields_id {M : Type} (f : M -> M) (now : datetime) (d : Doc M) :
  _id (set_fields f now d) = _id d.
Proof. reflexivity. Qed.

(** Marking the session a token selects: with unique identities, the token
    selects the marked session afterwards. *)
Lemma find_one_consumed (tok : string) (now : datetime) (c : list (Doc PumpSession.t))
    (ps : Doc PumpSession.t) :
  NoDup (map _id c) ->
  find_one (by_token tok) c = Some ps ->
  find_one (by_token tok)
    (update_one (by_id (_id ps)) (set_fields (with_used true) now) c)
  = Some (set_fields (with_used true) now ps).
Proof.
  unfold find_one.
  induction c as [|d rest IH]; simpl; [discriminate|]. intros Hnd Hfind.
  inversion Hnd as [|? ? Hnotin Hnd']; subst.
  destruct (by_token tok d) eqn:Hd.
  - injection Hfind as ->. unfold by_id at 1. rewrite N.eqb_refl. simpl.
    unfold by_token in *. simpl. rewrite Hd. reflexivity.
  - destruct (by_id (_id ps) d) eqn:Hid.
    + exfalso. apply Hnotin. apply by_id_eq in Hid. rewrite Hid.
      apply in_map. apply find_some in Hfind. tauto.
    + simpl. rewrite Hd. apply IH; assumption.
Qed.

(* ===================================================================== *)
(** ** The handlers, step by step *)
(* ===================================================================== *)

Lemma _customer_or_404_run (customer_id : string) (db : Database) :
  _customer_or_404 customer_id db
  = (match customer_of customer_id db with
     | Some cust => Return cust
     | None => Raise (lookup_error customer_id)
     end, db).
Proof.
  unfold _customer_or_404, customer_of, lookup_error, _oid, bind, get.
  destruct (ObjectId_of_str customer_id) as [oid|]; simpl; [|reflexivity].
  destruct (find_one (by_id oid) (customer db)); reflexivity.
Qed.

Lemma FUEL_PRICES_truthy (g : string) (price : float) :
  dict_get FUEL_PRICES g = Some price -> falsy price = false.
Proof.
  unfold FUEL_PRICES. cbn [dict_get].
  repeat match goal with
         | |- context [String.eqb ?a ?b] => destruct (String.eqb a b)
         end;
    intros H; inversion H; reflexivity.
Qed.

Lemma FUEL_PRICES_grade (g : string) (price : float) :
  dict_get FUEL_PRICES g = Some price -> is_grade g = true /\ gt0 price = true.
Proof.
  unfold FUEL_PRICES, is_grade. cbn [dict_get].
  rewrite (String.eqb_sym g "G91"), (String.eqb_sym g "G95"), (String.eqb_sym g "Diesel").
  destruct (String.eqb "G91" g); [intros H; inversion H; split; reflexivity|].
  destruct (String.eqb "G95" g); [intros H; inversion H; split; reflexivity|].
  destruct (String.eqb "Diesel" g); [intros H; inversion H; split; reflexivity|].
  discriminate.
Qed.

Lemma confirm_dispense_steps (now : datetime) (body : ConfirmDispenseRequest.t)
    (db : Database) :
  confirm_dispense now body db = confirm_steps now body db.
Proof.
  unfold confirm_dispense, confirm_steps, session_of, bind at 1, get.
  destruct (find_one _ (pumpsession db)) as [ps|]; [|reflexivity].
  destruct (PumpSession.used (fields ps)); [reflexivity|].
  destruct (_ <? now)%Z; [reflexivity|].
  unfold bind at 1. rewrite _customer_or_404_run.
  destruct (customer_of _ db) as [cust|]; [|reflexivity].
  destruct (dict_get FUEL_PRICES _) as [price|] eqn:Hprice; [|reflexivity].
  rewrite (FUEL_PRICES_truthy _ _ Hprice).
  destruct (fgt _ _); [reflexivity|].
  unfold settle, bind, write_balance, modify, new_FuelTransaction, validated,
    failing_fields, create_fueltransaction, mark_used, ret, raise.
  destruct (check _ "grade" ++ _)%list; reflexivity.
Qed.

Lemma customer_of_In (customer_id : string) (db : Database) (cust : Doc Customer.t) :
  customer_of customer_id db = Some cust -> In cust (customer db).
Proof.
  unfold customer_of. destruct (ObjectId_of_str customer_id); [|discriminate].
  intros H. apply find_one_In in H. tauto.
Qed.

Lemma topup_steps (now : datetime) (customer_id : string) (body : TopUpRequest.t)
    (db : Database) :
  topup now customer_id body db
  = if fle (TopUpRequest.amount body) zero then (Raise InvalidAmount, db)
    else
      match customer_of customer_id db with
      | None => (Raise (lookup_error customer_id), db)
      | Some cust =>
          let new_balance :=
            fadd (Customer.balance (fields cust)) (TopUpRequest.amount body) in
          (Return {| TopUpReply.customer_id := customer_id;
                     TopUpReply.balance := new_balance |},
           {| customer := balance_written now cust new_balance db;
              creditevent :=
                creditevent db
                ++ [new_doc now db
                      {| CreditEvent.customer_id := customer_id;
                         CreditEvent.amount := TopUpRequest.amount body;
                         CreditEvent.note := TopUpRequest.note body |}];
              fueltransaction := fueltransaction db;
              pumpsession := pumpsession db;
              next_id := N.succ (next_id db) |})
      end.
Proof.
  unfold topup. destruct (fle _ zero) eqn:Hle; [reflexivity|].
  unfold bind at 1. rewrite _customer_or_404_run.
  destruct (customer_of customer_id db) as [cust|]; [|reflexivity].
  unfold bind, write_balance, modify, new_CreditEvent, validated, gt0,
    create_creditevent, ret.
  cbn [CreditEvent.amount]. rewrite Hle. reflexivity.
Qed.

Lemma start_pump_session_steps (now : datetime) (urandom : list ascii)
    (customer_id : string) (body : StartPumpRequest.t) (db : Database) :
  start_pump_session now urandom customer_id body db
  = match customer_of customer_id db with
    | None => (Raise (lookup_error customer_id), db)
    | Some _ =>
        (Return {| StartReply.token := hex urandom; StartReply.expires_in_sec := 300 |},
         {| customer := customer db;
            creditevent := creditevent db;
            fueltransaction := fueltransaction db;
            pumpsession :=
              pumpsession db
              ++ [new_doc now db
                    {| PumpSession.token := hex urandom;
                       PumpSession.customer_id := customer_id;
                       PumpSession.pump_id := StartPumpRequest.pump_id body;
                       PumpSession.expires_at := now + five_minutes;
                       PumpSession.used := false |}];
            next_id := N.succ (next_id db) |})
    end.
Proof.
  unfold start_pump_session, bind. rewrite _customer_or_404_run.
  destruct (customer_of customer_id db); reflexivity.
Qed.

(* ===================================================================== *)
(** ** Liter estimates *)
(* ===================================================================== *)

Lemma calc_liters_run (customer_id : string) (body : CalculateLitersQuery.t)
    (db : Database) :
  calc_liters customer_id body db
  = (match customer_of customer_id db with
     | None => Raise (lookup_error customer_id)
     | Some cust =>
         match dict_get FUEL_PRICES (CalculateLitersQuery.grade body) with
         | None => Raise InvalidGrade
         | Some price =>
             Return {| LitersReply.grade := CalculateLitersQuery.grade body;
                       LitersReply.price := price;
                       LitersReply.max_liters :=
                         round2 (fdiv (Customer.balance (fields cust)) price) |}
         end
     end, db).
Proof.
  unfold calc_liters, bind. rewrite _customer_or_404_run.
  destruct (customer_of customer_id db) as [cust|]; [|reflexivity].
  destruct (dict_get FUEL_PRICES _) as [price|] eqn:Hprice; [|reflexivity].
  rewrite (FUEL_PRICES_truthy _ _ Hprice). reflexivity.
Qed.

(** C10. [calc_liters] never changes the database: whether it answers or
    raises (invalid id, unknown customer, invalid grade), every customer,
    credit event, fuel transaction and pump session is as it was. *)
Theorem calc_liters_frame (customer_id : string) (body : CalculateLitersQuery.t)
    (db : Database) :
  snd (calc_liters customer_id body db) = db.
Proof. rewrite calc_liters_run. reflexivity. Qed.

(** C9, as the code has it. For a customer holding 50.00 and grade "G91"
    at 2.18, [calc_liters] answers [max_liters = 22.94], which is
    50 / 2.18 = 22.9357... rounded to two decimals, and leaves the database
    as it was. *)
Theorem calc_liters_fifty (customer_id : string) (db : Database)
    (cust : Doc Customer.t) :
  customer_of customer_id db = Some cust ->
  Customer.balance (fields cust) = cents 5000 ->
  calc_liters customer_id {| CalculateLitersQuery.grade := "G91" |} db
  = (Return {| LitersReply.grade := "G91";
               LitersReply.price := cents 218;
               LitersReply.max_liters := cents 2294 |}, db).
Proof.
  intros Hcust Hbal. rewrite calc_liters_run, Hcust.
  cbn [CalculateLitersQuery.grade]. rewrite Hbal. vm_compute. reflexivity.
Qed.

Lemma calc_liters_fifty_witness :
  calc_liters alice_id {| CalculateLitersQuery.grade := "G91" |} demo_db
  = (Return {| LitersReply.grade := "G91";
               LitersReply.price := cents 218;
               LitersReply.max_liters := cents 2294 |}, demo_db).
Proof.
  apply (calc_liters_fifty alice_id demo_db
           (account alice_id "Alice" "0801" (cents 5000) true));
    vm_compute; reflexivity.
Defined.

(** C9, as stated, fails: Alice holds 50.00, and the estimate for "G91" is
    not 22.93. *)
Lemma calc_liters_not_22_93 :
  exists (cust : Doc Customer.t) (r : LitersReply.t),
    customer_of alice_id demo_db = Some cust
    /\ Customer.balance (fields cust) = cents 5000
    /\ dict_get FUEL_PRICES "G91" = Some (cents 218)
    /\ fst (calc_liters alice_id {| CalculateLitersQuery.grade := "G91" |} demo_db)
       = Return r
    /\ LitersReply.max_liters r <> cents 2293.
Proof.
  eexists. eexists.
  split; [vm_compute; reflexivity|].
  split; [vm_compute; reflexivity|].
  split; [vm_compute; reflexivity|].
  split; [vm_compute; reflexivity|].
  vm_compute. discriminate.
Qed.

(* ===================================================================== *)
(** ** Starting a session *)
(* ===================================================================== *)

(** C7, as the code has it. [start_pump_session] asks only that the
    customer id selects a customer: for every such customer, whatever its
    [active] flag, it answers with the token and stores one unused session
    that expires five minutes later; for an id that selects nobody it
    raises and stores nothing. *)
Theorem start_pump_session_run (now : datetime) (urandom : list ascii)
    (customer_id : string) (body : StartPumpRequest.t) (db : Database) :
  (forall cust : Doc Customer.t,
     customer_of customer_id db = Some cust ->
     start_pump_session now urandom customer_id body db
     = (Return {| StartReply.token := hex urandom; StartReply.expires_in_sec := 300 |},
        {| customer := customer db;
           creditevent := creditevent db;
           fueltransaction := fueltransaction db;
           pumpsession :=
             pumpsession db
             ++ [new_doc now db
                   {| PumpSession.token := hex urandom;
                      PumpSession.customer_id := customer_id;
                      PumpSession.pump_id := StartPumpRequest.pump_id body;
                      PumpSession.expires_at := now + five_minutes;
                      PumpSession.used := false |}];
           next_id := N.succ (next_id db) |}))
  /\ (customer_of customer_id db = None ->
      start_pump_session now urandom customer_id body db
      = (Raise (lookup_error customer_id), db)).
Proof.
  rewrite start_pump_session_steps. split.
  - intros cust ->. reflexivity.
  - intros ->. reflexivity.
Qed.

Lemma start_pump_session_run_witness :
  customer_of bob_id demo_db = Some (account bob_id "Bob" "0802" (cents 5000) false)
  /\ fst (start_pump_session t0 bytes_b bob_id (pump "pump-2") demo_db)
     = Return {| StartReply.token := token_b; StartReply.expires_in_sec := 300 |}.
Proof.
  split; [vm_compute; reflexivity|].
  rewrite (proj1 (start_pump_session_run t0 bytes_b bob_id (pump "pump-2") demo_db)
             (account bob_id "Bob" "0802" (cents 5000) false));
    vm_compute; reflexivity.
Defined.

(** C7, as stated, fails: Bob is deactivated, and a session is issued to
    him all the same. *)
Lemma start_pump_session_inactive :
  exists (cust : Doc Customer.t) (db' : Database),
    customer_of bob_id demo_db = Some cust
    /\ Customer.active (fields cust) = false
    /\ start_pump_session t0 bytes_b bob_id (pump "pump-2") demo_db
       = (Return {| StartReply.token := token_b; StartReply.expires_in_sec := 300 |}, db')
    /\ pumpsession demo_db = []
    /\ map (fun d => PumpSession.customer_id (fields d)) (pumpsession db') = [bob_id].
Proof.
  eexists. eexists.
  split; [vm_compute; reflexivity|].
  split; [vm_compute; reflexivity|].
  split; [vm_compute; reflexivity|].
  split; vm_compute; reflexivity.
Qed.

(* ===================================================================== *)
(** ** Receipt numbers *)
(* ===================================================================== *)

Lemma to_int_not_nil (n : Z) :
  Z.to_int n <> Decimal.Pos Decimal.Nil /\ Z.to_int n <> Decimal.Neg Decimal.Nil.
Proof.
  destruct n as [|p|p]; simpl; split; intros H; try discriminate;
    injection H as H; exact (DecimalPos.Unsigned.to_uint_nonnil p H).
Qed.

Lemma str_of_int_inj (a b : Z) : str_of_int a = str_of_int b -> a = b.
Proof.
  unfold str_of_int. intros H.
  apply (f_equal NilZero.int_of_string) in H.
  destruct (to_int_not_nil a) as [Ha1 Ha2], (to_int_not_nil b) as [Hb1 Hb2].
  rewrite !NilZero.isi in H by assumption.
  injection H as H. apply DecimalZ.to_int_inj. exact H.
Qed.

Lemma receipt_of_inj (now1 now2 : datetime) :
  receipt_of now1 = receipt_of now2 <->
  timestamp_seconds now1 = timestamp_seconds now2.
Proof.
  unfold receipt_of. split.
  - simpl. intros H. injection H as H. apply str_of_int_inj. exact H.
  - intros ->. reflexivity.
Qed.

(* ===================================================================== *)
(** ** Confirming a dispense *)
(* ===================================================================== *)

(** What a successful confirmation went through and what it left. *)
Lemma confirm_dispense_Return (now : datetime) (body : ConfirmDispenseRequest.t)
    (db db' : Database) (r : ConfirmReply.t) :
  confirm_dispense now body db = (Return r, db') ->
  exists (ps : Doc PumpSession.t) (cust : Doc Customer.t) (price : float),
    let total := round2 (fmul (ConfirmDispenseRequest.liters body) price) in
    let new_balance := round2 (fsub (Customer.balance (fields cust)) total) in
    session_of (ConfirmDispenseRequest.token body) db = Some ps
    /\ PumpSession.used (fields ps) = false
    /\ (now <= PumpSession.expires_at (fields ps))%Z
    /\ customer_of (PumpSession.customer_id (fields ps)) db = Some cust
    /\ dict_get FUEL_PRICES (ConfirmDispenseRequest.grade body) = Some price
    /\ fgt total (Customer.balance (fields cust)) = false
    /\ r = reply_of now body ps price total new_balance
    /\ db' = settled now body ps cust price total new_balance db.
Proof.
  rewrite confirm_dispense_steps. unfold confirm_steps.
  destruct (session_of _ db) as [ps|] eqn:Hps; [|discriminate].
  destruct (PumpSession.used (fields ps)) eqn:Hused; [discriminate|].
  destruct (_ <? now)%Z eqn:Hexp; [discriminate|].
  destruct (customer_of _ db) as [cust|] eqn:Hcust; [|discriminate].
  destruct (dict_get FUEL_PRICES _) as [price|] eqn:Hprice; [|discriminate].
  destruct (fgt _ _) eqn:Hgt; [discriminate|].
  unfold settle. destruct (failing_fields _); [|discriminate].
  intros H. injection H as <- <-.
  exists ps, cust, price. cbv zeta.
  apply Z.ltb_ge in Hexp. repeat split; auto.
Qed.

(** The conditions under which a confirmation goes through. *)
Lemma confirm_dispense_succeeds (now : datetime) (body : ConfirmDispenseRequest.t)
    (db : Database) (ps : Doc PumpSession.t) (cust : Doc Customer.t) (price : float) :
  let total := round2 (fmul (ConfirmDispenseRequest.liters body) price) in
  let new_balance := round2 (fsub (Customer.balance (fields cust)) total) in
  session_of (ConfirmDispenseRequest.token body) db = Some ps ->
  PumpSession.used (fields ps) = false ->
  (now <= PumpSession.expires_at (fields ps))%Z ->
  customer_of (PumpSession.customer_id (fields ps)) db = Some cust ->
  dict_get FUEL_PRICES (ConfirmDispenseRequest.grade body) = Some price ->
  fgt total (Customer.balance (fields cust)) = false ->
  gt0 (ConfirmDispenseRequest.liters body) = true ->
  gt0 total = true ->
  confirm_dispense now body db
  = (Return (reply_of now body ps price total new_balance),
     settled now body ps cust price total new_balance db).
Proof.
  intros total new_balance Hps Hused Hexp Hcust Hprice Hgt Hliters Htotal.
  rewrite confirm_dispense_steps. unfold confirm_steps.
  rewrite Hps, Hused. apply Z.ltb_ge in Hexp. rewrite Hexp, Hcust, Hprice.
  fold total. rewrite Hgt. unfold settle, failing_fields. fold total.
  destruct (FUEL_PRICES_grade _ _ Hprice) as [Hg Hp].
  cbn [transaction_of FuelTransaction.grade FuelTransaction.liters
       FuelTransaction.price_per_liter FuelTransaction.total].
  rewrite Hg, Hp, Hliters, Htotal. reflexivity.
Qed.

(** After a confirmation went through, its token selects a used session. *)
Lemma settled_session_used (now : datetime) (body : ConfirmDispenseRequest.t)
    (ps : Doc PumpSession.t) (cust : Doc Customer.t) (price total new_balance : float)
    (db : Database) :
  NoDup (map _id (pumpsession db)) ->
  session_of (ConfirmDispenseRequest.token body) db = Some ps ->
  session_of (ConfirmDispenseRequest.token body)
    (settled now body ps cust price total new_balance db)
  = Some (set_fields (with_used true) now ps).
Proof.
  intros Hnd Hps. unfold session_of, settled, consumed. cbn [pumpsession].
  apply find_one_consumed; assumption.
Qed.

(** After a confirmation went through, the customer holds the new balance. *)
Lemma settled_customer (now : datetime) (body : ConfirmDispenseRequest.t)
    (ps : Doc PumpSession.t) (cust : Doc Customer.t) (price total new_balance : float)
    (db : Database) (customer_id : string) :
  customer_of customer_id db = Some cust ->
  customer_of customer_id (settled now body ps cust price total new_balance db)
  = Some (set_fields (with_balance new_balance) now cust).
Proof.
  unfold customer_of, settled, balance_written. cbn [customer].
  destruct (ObjectId_of_str customer_id) as [oid|]; [|discriminate].
  intros Hcust.
  destruct (find_one_In _ _ _ Hcust) as [_ Hid]. apply by_id_eq in Hid.
  rewrite Hid. apply find_one_update_one; [assumption|].
  unfold by_id. rewrite set_fields_id, Hid. apply N.eqb_refl.
Qed.



(** C2. A confirmation that reaches the balance check with a total
    ([round(liters * price, 2)]) strictly above the customer's balance
    raises "Insufficient balance" and leaves the database as it was: the
    balance keeps its value, no transaction is recorded, and the session is
    still unused. *)
Theorem confirm_dispense_insufficient (now : datetime)
    (body : ConfirmDispenseRequest.t) (db : Database)
    (ps : Doc PumpSession.t) (cust : Doc Customer.t) (price : float) :
  session_of (ConfirmDispenseRequest.token body) db = Some ps ->
  PumpSession.used (fields ps) = false ->
  (now <= PumpSession.expires_at (fields ps))%Z ->
  customer_of (PumpSession.customer_id (fields ps)) db = Some cust ->
  dict_get FUEL_PRICES (ConfirmDispenseRequest.grade body) = Some price ->
  fgt (round2 (fmul (ConfirmDispenseRequest.liters body) price))
    (Customer.balance (fields cust)) = true ->
  confirm_dispense now body db = (Raise InsufficientBalance, db)
  /\ customer_of (PumpSession.customer_id (fields ps))
       (snd (confirm_dispense now body db)) = Some cust
  /\ fueltransaction (snd (confirm_dispense now body db)) = fueltransaction db
  /\ session_of (ConfirmDispenseRequest.token body)
       (snd (confirm_dispense now body db)) = Some ps.
Proof.
  intros Hps Hused Hexp Hcust Hprice Hgt.
  assert (Hrun : confirm_dispense now body db = (Raise InsufficientBalance, db)).
  { rewrite confirm_dispense_steps. unfold confirm_steps.
    apply Z.ltb_ge in Hexp. rewrite Hps, Hused, Hexp, Hcust, Hprice, Hgt.
    reflexivity. }
  rewrite Hrun. cbn [snd]. auto.
Qed.

Lemma confirm_dispense_insufficient_witness :
  confirm_dispense (t0 + 1000000) (dispense token_a "G91" (of_Z 100)) demo_session_db
  = (Raise InsufficientBalance, demo_session_db).
Proof.
  refine (proj1 (confirm_dispense_insufficient (t0 + 1000000)
                   (dispense token_a "G91" (of_Z 100)) demo_session_db
                   (new_doc t0 demo_db
                      {| PumpSession.token := token_a;
                         PumpSession.customer_id := alice_id;
                         PumpSession.pump_id := "pump-1";
                         PumpSession.expires_at := t0 + five_minutes;
                         PumpSession.used := false |})
                   (account alice_id "Alice" "0801" (cents 5000) true)
                   (cents 218) _ _ _ _ _ _));
    vm_compute; try reflexivity; discriminate.
Defined.

(** C4. With a session that is unused and not past its expiry, held by a
    customer with 50.00, [Confirm(token, "G91", 10)] answers with total
    21.80 and new balance 28.20; afterwards the customer holds 28.20, the
    token selects a used session, and exactly one fuel transaction was
    added, with status [confirmed]. *)
Theorem confirm_dispense_ten_liters (now : datetime) (tok : string) (db : Database)
    (ps : Doc PumpSession.t) (cust : Doc Customer.t) :
  NoDup (map _id (pumpsession db)) ->
  session_of tok db = Some ps ->
  PumpSession.used (fields ps) = false ->
  (now <= PumpSession.expires_at (fields ps))%Z ->
  customer_of (PumpSession.customer_id (fields ps)) db = Some cust ->
  Customer.balance (fields cust) = cents 5000 ->
  exists (r : ConfirmReply.t) (db' : Database),
    confirm_dispense now (dispense tok "G91" (of_Z 10)) db = (Return r, db')
    /\ ConfirmReply.total r = cents 2180
    /\ ConfirmReply.new_balance r = cents 2820
    /\ (exists cust', customer_of (PumpSession.customer_id (fields ps)) db' = Some cust'
                      /\ Customer.balance (fields cust') = cents 2820)
    /\ (exists ps', session_of tok db' = Some ps'
                    /\ PumpSession.used (fields ps') = true)
    /\ (exists tx, fueltransaction db' = (fueltransaction db ++ [tx])%list
                   /\ FuelTransaction.status (fields tx) = confirmed
                   /\ FuelTransaction.total (fields tx) = cents 2180
                   /\ FuelTransaction.liters (fields tx) = of_Z 10
                   /\ FuelTransaction.grade (fields tx) = "G91").
Proof.
  intros Hnd Hps Hused Hexp Hcust Hbal.
  pose proof (confirm_dispense_succeeds now (dispense tok "G91" (of_Z 10)) db
                ps cust (cents 218)) as Hrun.
  cbv zeta in Hrun. cbn [dispense ConfirmDispenseRequest.token
    ConfirmDispenseRequest.liters ConfirmDispenseRequest.grade] in Hrun.
  rewrite Hbal in Hrun.
  replace (round2 (fmul (of_Z 10) (cents 218))) with (cents 2180) in Hrun
    by (vm_compute; reflexivity).
  replace (round2 (fsub (cents 5000) (cents 2180))) with (cents 2820) in Hrun
    by (vm_compute; reflexivity).
  specialize (Hrun Hps Hused Hexp Hcust eq_refl eq_refl eq_refl eq_refl).
  eexists. eexists. split; [exact Hrun|].
  split; [reflexivity|]. split; [reflexivity|].
  split.
  { eexists. split; [apply settled_customer; exact Hcust | reflexivity]. }
  split.
  { eexists. split; [apply (settled_session_used now (dispense tok "G91" (of_Z 10)));
                     assumption | reflexivity]. }
  eexists. split; [reflexivity|]. repeat split; reflexivity.
Qed.

Lemma confirm_dispense_ten_liters_witness :
  exists (r : ConfirmReply.t) (db' : Database),
    confirm_dispense (t0 + 1000000) (dispense token_a "G91" (of_Z 10)) demo_session_db
    = (Return r, db')
    /\ ConfirmReply.total r = cents 2180
    /\ ConfirmReply.new_balance r = cents 2820.
Proof.
  assert (Hnd : NoDup (map _id (pumpsession demo_session_db))).
  { vm_compute. repeat constructor. intros []. }
  assert (Hexp : (t0 + 1000000 <= t0 + five_minutes)%Z).
  { vm_compute. discriminate. }
  destruct (confirm_dispense_ten_liters (t0 + 1000000) token_a demo_session_db
              (new_doc t0 demo_db
                 {| PumpSession.token := token_a;
                    PumpSession.customer_id := alice_id;
                    PumpSession.pump_id := "pump-1";
                    PumpSession.expires_at := t0 + five_minutes;
                    PumpSession.used := false |})
              (account alice_id "Alice" "0801" (cents 5000) true)
              Hnd eq_refl eq_refl Hexp eq_refl eq_refl)
    as (r & db' & Hrun & Htotal & Hbal & _).
  exists r, db'. auto.
Defined.

(** C5, at a failing input. With -10 liters (or 0 liters) on a valid
    session and grade, [confirm_dispense] raises no "invalid volume" error:
    it first writes the balance (50.00 + 21.80 = 71.80 for -10 liters), and
    only then the transaction model refuses the volume; no transaction is
    recorded and the session stays unused. *)
Lemma confirm_dispense_nonpositive_liters :
  (let (o, db') :=
     confirm_dispense (t0 + 1000000) (dispense token_a "G91" (of_Z (-10)))
       demo_session_db in
   o = Raise (ValidationError "FuelTransaction" ["liters"; "total"])
   /\ balances demo_session_db = [cents 5000; cents 5000]
   /\ balances db' = [cents 7180; cents 5000]
   /\ fueltransaction db' = []
   /\ option_map (fun d => PumpSession.used (fields d)) (session_of token_a db')
      = Some false)
  /\ fst (confirm_dispense (t0 + 1000000) (dispense token_a "G91" (of_Z 0))
            demo_session_db)
     = Raise (ValidationError "FuelTransaction" ["liters"; "total"]).
Proof. vm_compute. repeat split; reflexivity. Qed.

(** C6, as the code has it. For a session that was never consumed, a
    confirmation at an instant strictly after [expires_at] raises "Session
    expired" and changes nothing; at any instant up to and including
    [expires_at] it does not raise "Session expired". *)
Theorem confirm_dispense_expired (now : datetime) (body : ConfirmDispenseRequest.t)
    (db : Database) (ps : Doc PumpSession.t) :
  session_of (ConfirmDispenseRequest.token body) db = Some ps ->
  PumpSession.used (fields ps) = false ->
  ((PumpSession.expires_at (fields ps) < now)%Z ->
   confirm_dispense now body db = (Raise SessionExpired, db))
  /\ ((now <= PumpSession.expires_at (fields ps))%Z ->
      fst (confirm_dispense now body db) <> Raise SessionExpired).
Proof.
  intros Hps Hused. rewrite confirm_dispense_steps. unfold confirm_steps.
  rewrite Hps, Hused. split; intros Hexp.
  - apply Z.ltb_lt in Hexp. rewrite Hexp. reflexivity.
  - apply Z.ltb_ge in Hexp. rewrite Hexp.
    destruct (customer_of _ db) as [cust|].
    + destruct (dict_get FUEL_PRICES _) as [price|]; [|discriminate].
      destruct (fgt _ _); [discriminate|].
      unfold settle. destruct (failing_fields _); discriminate.
    + unfold lookup_error. destruct (ObjectId_of_str _); discriminate.
Qed.

Lemma confirm_dispense_expired_witness :
  confirm_dispense (t0 + five_minutes + 1) (dispense token_a "G91" (of_Z 10))
    demo_session_db
  = (Raise SessionExpired, demo_session_db).
Proof.
  refine (proj1 (confirm_dispense_expired (t0 + five_minutes + 1)
                   (dispense token_a "G91" (of_Z 10)) demo_session_db
                   (new_doc t0 demo_db
                      {| PumpSession.token := token_a;
                         PumpSession.customer_id := alice_id;
                         PumpSession.pump_id := "pump-1";
                         PumpSession.expires_at := t0 + five_minutes;
                         PumpSession.used := false |}) _ _) _);
    vm_compute; reflexivity.
Defined.

(** C6, as stated, fails: at the instant [now = expires_at] (so
    [now >= expires_at]) the unused session is still honoured, and the
    confirmation goes through. *)
Lemma confirm_dispense_at_expiry :
  exists (ps : Doc PumpSession.t) (r : ConfirmReply.t),
    session_of token_a demo_session_db = Some ps
    /\ PumpSession.used (fields ps) = false
    /\ (t0 + five_minutes >= PumpSession.expires_at (fields ps))%Z
    /\ fst (confirm_dispense (t0 + five_minutes) (dispense token_a "G91" (of_Z 10))
              demo_session_db) = Return r.
Proof.
  eexists. eexists.
  split; [vm_compute; reflexivity|].
  split; [vm_compute; reflexivity|].
  split; [vm_compute; discriminate|].
  vm_compute. reflexivity.
Qed.

(** C8, as the code has it. Every successful confirmation answers with, and
    records on its transaction, the receipt number "RX" followed by the
    whole seconds of its instant; so two successful confirmations carry the
    same receipt number exactly when they happen within the same second. *)
Theorem receipt_no_by_second (now1 now2 : datetime)
    (body1 body2 : ConfirmDispenseRequest.t) (db1 db1' db2 db2' : Database)
    (r1 r2 : ConfirmReply.t) :
  confirm_dispense now1 body1 db1 = (Return r1, db1') ->
  confirm_dispense now2 body2 db2 = (Return r2, db2') ->
  ConfirmReply.receipt_no r1 = "RX" ++ str_of_int (timestamp_seconds now1)
  /\ (exists tx, fueltransaction db1' = (fueltransaction db1 ++ [tx])%list
                 /\ FuelTransaction.receipt_no (fields tx)
                    = Some (ConfirmReply.receipt_no r1))
  /\ (ConfirmReply.receipt_no r1 = ConfirmReply.receipt_no r2
      <-> timestamp_seconds now1 = timestamp_seconds now2).
Proof.
  intros H1 H2.
  destruct (confirm_dispense_Return _ _ _ _ _ H1)
    as (ps1 & c1 & p1 & _ & _ & _ & _ & _ & _ & -> & ->).
  destruct (confirm_dispense_Return _ _ _ _ _ H2)
    as (ps2 & c2 & p2 & _ & _ & _ & _ & _ & _ & -> & ->).
  cbn [reply_of ConfirmReply.receipt_no].
  split; [reflexivity|]. split.
  - eexists. split; reflexivity.
  - apply receipt_of_inj.
Qed.

Lemma receipt_no_by_second_witness :
  exists (r1 r2 : ConfirmReply.t) (db1 db2 : Database),
    confirm_dispense (t0 + 2000000) (dispense token_a "G91" (of_Z 10))
      demo_two_sessions_db = (Return r1, db1)
    /\ confirm_dispense (t0 + 3000000) (dispense token_b "G95" (of_Z 5)) db1
       = (Return r2, db2)
    /\ ConfirmReply.receipt_no r1 = "RX1730000002"
    /\ ConfirmReply.receipt_no r2 = "RX1730000003".
Proof.
  destruct (confirm_dispense (t0 + 2000000) (dispense token_a "G91" (of_Z 10))
              demo_two_sessions_db) as [o1 db1] eqn:H1.
  assert (Hr1 : exists r1, o1 = Return r1).
  { vm_compute in H1. injection H1 as <- _. eexists. reflexivity. }
  destruct Hr1 as [r1 ->].
  destruct (confirm_dispense (t0 + 3000000) (dispense token_b "G95" (of_Z 5)) db1)
    as [o2 db2] eqn:H2.
  assert (Hr2 : exists r2, o2 = Return r2).
  { vm_compute in H1. injection H1 as _ <-.
    vm_compute in H2. injection H2 as <- _. eexists. reflexivity. }
  destruct Hr2 as [r2 ->].
  exists r1, r2, db1, db2.
  split; [reflexivity|]. split; [exact H2|].
  destruct (receipt_no_by_second _ _ _ _ _ _ _ _ _ _ H1 H2) as (E1 & _ & _).
  destruct (receipt_no_by_second _ _ _ _ _ _ _ _ _ _ H2 H1) as (E2 & _ & _).
  rewrite E1, E2. split; vm_compute; reflexivity.
Defined.

(** C8, as stated, fails: two sessions confirmed half a second apart, both
    successfully, carry the same receipt number. *)
Lemma receipt_no_collision :
  exists (r1 r2 : ConfirmReply.t) (db1 db2 : Database),
    confirm_dispense (t0 + 2000000) (dispense token_a "G91" (of_Z 10))
      demo_two_sessions_db = (Return r1, db1)
    /\ confirm_dispense (t0 + 2500000) (dispense token_b "G95" (of_Z 5)) db1
       = (Return r2, db2)
    /\ ConfirmReply.receipt_no r1 = ConfirmReply.receipt_no r2
    /\ map (fun d => FuelTransaction.receipt_no (fields d)) (fueltransaction db2)
       = [Some "RX1730000002"; Some "RX1730000002"].
Proof.
  eexists. eexists. eexists. eexists.
  split; [vm_compute; reflexivity|].
  split; [vm_compute; reflexivity|].
  split; vm_compute; reflexivity.
Qed.

(* ===================================================================== *)
(** ** Top-ups and the sign of the balance *)
(* ===================================================================== *)



Lemma round2_never_negative (x : float) :
  never_negative x = true -> never_negative (round2 x) = true.
Proof.
  intros H. apply never_negative_signed, round2_signed, signed_never_negative, H.
Qed.

Lemma Forall2_compose {A : Type} (R : A -> A -> Prop) (l1 l2 l3 : list A) :
  (forall x y z, R x y -> R y z -> R x z) ->
  Forall2 R l1 l2 -> Forall2 R l2 l3 -> Forall2 R l1 l3.
Proof.
  intros Htrans H12. revert l3.
  induction H12 as [|x y l1 l2 Hxy _ IH]; intros l3 H23;
    inversion H23; subst; constructor; eauto.
Qed.

Lemma Forall2_nth_error {A : Type} (R : A -> A -> Prop) (l1 l2 : list A)
    (i : nat) (x : A) :
  Forall2 R l1 l2 -> nth_error l1 i = Some x ->
  exists y, nth_error l2 i = Some y /\ R x y.
Proof.
  intros H. revert i.
  induction H as [|a b l1 l2 Hab _ IH]; intros [|i]; simpl; try discriminate.
  - intros E. injection E as <-. eauto.
  - apply IH.
Qed.


Lemma keeps_sign_trans (c1 c2 c3 : Doc Customer.t) :
  keeps_sign c1 c2 -> keeps_sign c2 c3 -> keeps_sign c1 c3.
Proof. intros [E1 H1] [E2 H2]. split; [congruence | auto]. Qed.








(* ===================================================================== *)
(** ** Identities of sessions *)
(* ===================================================================== *)

Lemma sessions_wf_empty : sessions_wf empty_db.
Proof. split; constructor. Qed.

Lemma sessions_wf_next (db : Database) (c : list (Doc PumpSession.t)) (n : ObjectId) :
  sessions_wf db -> map _id c = map _id (pumpsession db) ->
  (next_id db <= n)%N ->
  NoDup (map _id c) /\ Forall (fun d => (_id d < n)%N) c.
Proof.
  intros [Hnd Hlt] Hids Hn. split; [rewrite Hids; exact Hnd|].
  rewrite Forall_forall in *. intros d Hd.
  assert (Hd' : In (_id d) (map _id (pumpsession db))).
  { rewrite <- Hids. apply in_map, Hd. }
  apply in_map_iff in Hd'. destruct Hd' as (d' & Heq & Hd').
  specialize (Hlt d' Hd'). rewrite <- Heq. lia.
Qed.

Lemma serve_sessions_wf (r : Request) (db : Database) :
  sessions_wf db -> sessions_wf (serve r db).
Proof.
  intros Hwf. unfold sessions_wf.
  destruct r as [now cid body | now urandom cid body | cid body | now body]; simpl.
  - rewrite topup_steps. destruct (fle _ zero); [exact Hwf|].
    destruct (customer_of cid db); [|exact Hwf]. cbn [snd pumpsession next_id].
    apply (sessions_wf_next db); [assumption|reflexivity|lia].
  - rewrite start_pump_session_steps.
    destruct (customer_of cid db); [|exact Hwf]. cbn [snd pumpsession next_id].
    destruct Hwf as [Hnd Hlt]. split.
    + rewrite map_app. cbn [map new_doc _id].
      apply NoDup_app; [assumption | repeat constructor; intros [] |].
      intros x Hx [Hnew|[]]. subst x.
      apply in_map_iff in Hx. destruct Hx as (sd & Heq & Hsd).
      rewrite Forall_forall in Hlt. specialize (Hlt sd Hsd). lia.
    + apply Forall_app. split.
      * revert Hlt. apply Forall_impl. intros sd Hsd. lia.
      * repeat constructor. cbn [new_doc _id]. lia.
  - rewrite calc_liters_run. exact Hwf.
  - rewrite confirm_dispense_steps. unfold confirm_steps.
    destruct (session_of _ db) as [ps|]; [|exact Hwf].
    destruct (PumpSession.used (fields ps)); [exact Hwf|].
    destruct (_ <? now)%Z; [exact Hwf|].
    destruct (customer_of _ db) as [cust|]; [|exact Hwf].
    destruct (dict_get FUEL_PRICES _) as [price|]; [|exact Hwf].
    destruct (fgt _ _); [exact Hwf|].
    unfold settle. destruct (failing_fields _);
      cbn [snd pumpsession next_id set_customer settled].
    + apply (sessions_wf_next db); [assumption| |lia].
      unfold consumed. apply update_one_ids. intros d. apply set_fields_id.
    + exact Hwf.
Qed.

(** Every database the handlers can build from the empty one keeps the
    identities of its sessions unique. *)
Lemma run_sessions_wf (rs : list Request) (db : Database) :
  sessions_wf db -> sessions_wf (run rs db).
Proof.
  unfold run. revert db.
  induction rs as [|r rs IH]; intros db Hdb; simpl; [assumption|].
  apply IH, serve_sessions_wf, Hdb.
Qed.

(* ===================================================================== *)
(** ** Identities and tokens as text *)
(* ===================================================================== *)

Lemma hex_digit_hex_char (d : N) : (d < 16)%N -> hex_digit (hex_char d) = Some d.
Proof.
  intros Hd.
  assert (H : In d [0; 1; 2; 3; 4; 5; 6; 7; 8; 9; 10; 11; 12; 13; 14; 15]%N).
  { simpl. lia. }
  simpl in H.
  repeat (destruct H as [<-|H]; [reflexivity|]). contradiction.
Qed.

Lemma hex_value_app (s1 s2 : string) (acc : N) :
  hex_value (s1 ++ s2) acc
  = match hex_value s1 acc with
    | Some a => hex_value s2 a
    | None => None
    end.
Proof.
  revert acc. induction s1 as [|c s1 IH]; intros acc; simpl; [reflexivity|].
  destruct (hex_digit c); [apply IH | reflexivity].
Qed.

Lemma hex_value_hex_digits (n : nat) (v acc : N) :
  hex_value (hex_digits n v) acc
  = Some (acc * 16 ^ N.of_nat n + v mod 16 ^ N.of_nat n)%N.
Proof.
  revert v acc. induction n as [|n IH]; intros v acc.
  - simpl. rewrite N.mod_1_r. f_equal. lia.
  - cbn [hex_digits]. rewrite hex_value_app, IH. cbn [hex_value].
    rewrite hex_digit_hex_char by (apply N.mod_lt; lia).
    f_equal. rewrite Nat2N.inj_succ, N.pow_succ_r'.
    rewrite N.Div0.mod_mul_r. ring.
Qed.

Lemma string_length_app (s1 s2 : string) :
  String.length (s1 ++ s2) = (String.length s1 + String.length s2)%nat.
Proof. induction s1 as [|c s1 IH]; simpl; [reflexivity | rewrite IH; reflexivity]. Qed.

Lemma length_hex_digits (n : nat) (v : N) : String.length (hex_digits n v) = n.
Proof.
  revert v. induction n as [|n IH]; intros v; [reflexivity|].
  cbn [hex_digits]. rewrite string_length_app, IH. simpl. lia.
Qed.

Lemma str_of_ObjectId_parses (oid : ObjectId) :
  twelve_bytes oid -> ObjectId_of_str (str_of_ObjectId oid) = Some oid.
Proof.
  unfold twelve_bytes, ObjectId_of_str, str_of_ObjectId. intros Hoid.
  rewrite length_hex_digits. cbn [Nat.eqb].
  rewrite hex_value_hex_digits, N.mul_0_l, N.add_0_l.
  rewrite N.mod_small; [reflexivity|].
  change (16 ^ N.of_nat 24)%N with (2 ^ 96)%N. exact Hoid.
Qed.

(** X1. The text of an identity of twelve bytes reads back as that identity:
    [ObjectId(str(oid)) == oid]. *)
Theorem ObjectId_of_str_of_ObjectId (oid : ObjectId) :
  twelve_bytes oid -> ObjectId_of_str (str_of_ObjectId oid) = Some oid.
Proof. apply str_of_ObjectId_parses. Qed.

Lemma ObjectId_of_str_of_ObjectId_witness :
  ObjectId_of_str (str_of_ObjectId (oid_of alice_id)) = Some (oid_of alice_id).
Proof.
  apply (ObjectId_of_str_of_ObjectId (oid_of alice_id)). vm_compute. reflexivity.
Defined.





Lemma hex_char_inj (a b : N) :
  (a < 16)%N -> (b < 16)%N -> hex_char a = hex_char b -> a = b.
Proof.
  intros Ha Hb E. apply (f_equal hex_digit) in E.
  rewrite !hex_digit_hex_char in E by assumption. injection E as E. exact E.
Qed.

(** X3. [bytes.hex()] writes two characters per byte and loses nothing: the
    token of six random bytes has twelve characters, and two tokens are
    equal only when the random bytes are. *)
Theorem hex_injective (bs bs' : list ascii) :
  String.length (hex bs) = (2 * List.length bs)%nat
  /\ (hex bs = hex bs' -> bs = bs').
Proof.
  split.
  - induction bs as [|b bs IH]; simpl; [reflexivity|]. rewrite IH. lia.
  - revert bs'. induction bs as [|b bs IH]; intros [|b' bs']; simpl;
      try discriminate; [reflexivity|].
    intros E. injection E as Ehi Elo Erest.
    assert (Hlt : forall x : ascii, (N_of_ascii x < 256)%N).
    { intros x. apply N_ascii_bounded. }
    apply hex_char_inj in Ehi;
      [|apply N.Div0.div_lt_upper_bound; apply (Hlt _) ..].
    apply hex_char_inj in Elo; [|apply N.mod_lt; lia ..].
    f_equal; [|apply IH, Erest].
    rewrite <- (ascii_N_embedding b), <- (ascii_N_embedding b').
    f_equal.
    rewrite (N.Div0.div_mod (N_of_ascii b) 16), (N.Div0.div_mod (N_of_ascii b') 16).
    rewrite Ehi, Elo. reflexivity.
Qed.

Lemma hex_injective_witness :
  String.length (hex bytes_a) = 12%nat /\ bytes_a <> bytes_b /\ hex bytes_a <> hex bytes_b.
Proof.
  split; [exact (proj1 (hex_injective bytes_a bytes_b))|].
  assert (Hne : bytes_a <> bytes_b) by discriminate.
  split; [exact Hne|].
  intros E. exact (Hne (proj2 (hex_injective bytes_a bytes_b) E)).
Defined.

(* ===================================================================== *)
(** ** The other endpoints, step by step *)
(* ===================================================================== *)

Lemma get_balance_run (customer_id : string) (db : Database) :
  get_balance customer_id db
  = (match customer_of customer_id db with
     | Some cust =>
         Return {| BalanceReply.balance := Customer.balance (fields cust);
                   BalanceReply.name := Customer.name (fields cust) |}
     | None => Raise (lookup_error customer_id)
     end, db).
Proof.
  unfold get_balance, bind. rewrite _customer_or_404_run.
  destruct (customer_of customer_id db); reflexivity.
Qed.

Lemma login_run (req : LoginRequest.t) (db : Database) :
  login req db
  = (match find_one (by_credentials req) (customer db) with
     | Some user =>
         Return {| LoginReply.customer_id := str_of_ObjectId (_id user);
                   LoginReply.name := Customer.name (fields user);
                   LoginReply.balance := Customer.balance (fields user) |}
     | None => Raise InvalidCredentials
     end, db).
Proof.
  unfold login, bind, get.
  destruct (find_one (by_credentials req) (customer db)); reflexivity.
Qed.

Lemma credit_history_run (customer_id : string) (db : Database) :
  credit_history customer_id db
  = (Return (map listed
               (newest_first (filter (by_customer_id customer_id) (creditevent db)))),
     db).
Proof. reflexivity. Qed.

Lemma create_customer_steps (now : datetime) (req : CreateCustomer.t) (db : Database) :
  create_customer now req db
  = match find_one (by_phone (CreateCustomer.phone req)) (customer db) with
    | Some _ => (Raise PhoneTaken, db)
    | None =>
        if ((4 <=? String.length (CreateCustomer.pin req))%nat
            && (String.length (CreateCustomer.pin req) <=? 8)%nat)
        then (Return {| CreateReply.customer_id := next_id db |},
              {| customer :=
                   customer db
                   ++ [new_doc now db
                         {| Customer.name := CreateCustomer.name req;
                            Customer.phone := CreateCustomer.phone req;
                            Customer.email := CreateCustomer.email req;
                            Customer.pin := CreateCustomer.pin req;
                            Customer.balance := zero;
                            Customer.active := true |}];
                 creditevent := creditevent db;
                 fueltransaction := fueltransaction db;
                 pumpsession := pumpsession db;
                 next_id := N.succ (next_id db) |})
        else (Raise (ValidationError "Customer" ["pin"]), db)
    end.
Proof.
  unfold create_customer, bind at 1, get.
  destruct (find_one _ (customer db)); [reflexivity|].
  unfold bind, new_Customer, validated, create_customer_document, ret, raise.
  cbn [Customer.pin Customer.balance].
  destruct (_ && _); reflexivity.
Qed.

(** X4. The endpoints that only read, [get_balance], [login] and
    [credit_history], leave the database as it was, whether they answer or
    raise. *)
Theorem read_only_endpoints (customer_id : string) (req : LoginRequest.t)
    (db : Database) :
  snd (get_balance customer_id db) = db
  /\ snd (login req db) = db
  /\ snd (credit_history customer_id db) = db.
Proof.
  rewrite get_balance_run, login_run, credit_history_run. auto.
Qed.

(* ===================================================================== *)
(** ** Top-ups *)
(* ===================================================================== *)

Lemma find_one_update_one_other {M : Type} (oid oid' : ObjectId)
    (upd : Doc M -> Doc M) (c : list (Doc M)) (d : Doc M) :
  (forall x, _id (upd x) = _id x) ->
  find_one (by_id oid') c = Some d -> _id d <> oid ->
  find_one (by_id oid') (update_one (by_id oid) upd c) = Some d.
Proof.
  unfold find_one. intros Hupd.
  induction c as [|x rest IH]; simpl; [discriminate|]. intros Hfind Hne.
  destruct (by_id oid' x) eqn:Hx'.
  - injection Hfind as ->.
    destruct (by_id oid d) eqn:Hx.
    + apply by_id_eq in Hx. contradiction.
    + simpl. rewrite Hx'. reflexivity.
  - destruct (by_id oid x) eqn:Hx; simpl.
    + unfold by_id in *. rewrite Hupd, Hx'. exact Hfind.
    + rewrite Hx'. apply IH; assumption.
Qed.

Lemma balance_written_other (now : datetime) (cust : Doc Customer.t) (b : float)
    (db db' : Database) (customer_id : string) (other : Doc Customer.t) :
  customer db' = balance_written now cust b db ->
  customer_of customer_id db = Some other -> _id other <> _id cust ->
  customer_of customer_id db' = Some other.
Proof.
  unfold customer_of, balance_written. intros ->.
  destruct (ObjectId_of_str customer_id) as [oid|]; [|discriminate].
  intros Hother Hne. apply find_one_update_one_other; auto.
Qed.

Lemma balance_written_self (now : datetime) (cust : Doc Customer.t) (b : float)
    (db db' : Database) (customer_id : string) :
  customer db' = balance_written now cust b db ->
  customer_of customer_id db = Some cust ->
  customer_of customer_id db' = Some (set_fields (with_balance b) now cust).
Proof.
  unfold customer_of, balance_written. intros ->.
  destruct (ObjectId_of_str customer_id) as [oid|]; [|discriminate].
  intros Hcust.
  destruct (find_one_In _ _ _ Hcust) as [_ Hid]. apply by_id_eq in Hid.
  rewrite Hid. apply find_one_update_one; [assumption|].
  unfold by_id. rewrite set_fields_id, Hid. apply N.eqb_refl.
Qed.





(** X7. Credit, then read: after a top-up answered, [get_balance] of the same
    id answers with the balance the top-up reported. *)
Theorem get_balance_after_topup (now : datetime) (customer_id : string)
    (body : TopUpRequest.t) (db db' : Database) (r : TopUpReply.t) :
  topup now customer_id body db = (Return r, db') ->
  exists name : string,
    get_balance customer_id db'
    = (Return {| BalanceReply.balance := TopUpReply.balance r;
                 BalanceReply.name := name |}, db').
Proof.
  rewrite topup_steps. destruct (fle _ zero); [discriminate|].
  destruct (customer_of customer_id db) as [cust|] eqn:Hcust; [|discriminate].
  intros H. injection H as <- <-.
  rewrite get_balance_run.
  erewrite (balance_written_self now cust _ db) by (reflexivity || exact Hcust).
  eexists. reflexivity.
Qed.

Lemma get_balance_after_topup_witness :
  fst (get_balance alice_id (snd (topup t0 alice_id (credit (cents 2500)) demo_db)))
  = Return {| BalanceReply.balance := cents 7500; BalanceReply.name := "Alice" |}.
Proof.
  destruct (topup t0 alice_id (credit (cents 2500)) demo_db) as [o db'] eqn:H.
  assert (Ho : o = Return {| TopUpReply.customer_id := alice_id;
                            TopUpReply.balance := cents 7500 |}).
  { vm_compute in H. injection H as <- _. reflexivity. }
  subst o. cbn [snd].
  destruct (get_balance_after_topup _ _ _ _ _ _ H) as [name Hget].
  rewrite Hget in *. cbn [fst TopUpReply.balance].
  assert (Hname : name = "Alice").
  { vm_compute in H. injection H as <-. vm_compute in Hget.
    injection Hget as Hn. symmetry. exact Hn. }
  rewrite Hname. reflexivity.
Defined.

(* ===================================================================== *)
(** ** More on confirmations *)
(* ===================================================================== *)

(** X8. A confirmation that raises an HTTP error has written nothing: every
    check that answers 400 or 404 comes before the first write. *)
Theorem confirm_dispense_http_error_frame (now : datetime)
    (body : ConfirmDispenseRequest.t) (db db' : Database)
    (status_code : Z) (detail : string) :
  confirm_dispense now body db = (Raise (HTTPException status_code detail), db') ->
  db' = db.
Proof.
  rewrite confirm_dispense_steps. unfold confirm_steps.
  destruct (session_of _ db) as [ps|]; [|intros H; injection H; auto].
  destruct (PumpSession.used (fields ps)); [intros H; injection H; auto|].
  destruct (_ <? now)%Z; [intros H; injection H; auto|].
  destruct (customer_of _ db) as [cust|]; [|intros H; injection H; auto].
  destruct (dict_get FUEL_PRICES _) as [price|]; [|intros H; injection H; auto].
  destruct (fgt _ _); [intros H; injection H; auto|].
  unfold settle. destruct (failing_fields _); discriminate.
Qed.

Lemma confirm_dispense_http_error_frame_witness :
  snd (confirm_dispense (t0 + 1000000) (dispense token_a "Kerosene" (of_Z 10))
         demo_session_db) = demo_session_db.
Proof.
  destruct (confirm_dispense (t0 + 1000000) (dispense token_a "Kerosene" (of_Z 10))
              demo_session_db) as [o db'] eqn:H.
  assert (Ho : o = Raise (HTTPException 400 "Invalid grade")).
  { vm_compute in H. injection H as <- _. reflexivity. }
  subst o. exact (confirm_dispense_http_error_frame _ _ _ _ _ _ H).
Defined.

(** X9. The session checks come first and in this order: an unknown token is
    "Session not found", and a used session is "Session already used" at
    any time, also after its expiry and whatever the grade and the volume;
    neither changes the database. *)
Theorem confirm_dispense_session_errors (now : datetime)
    (body : ConfirmDispenseRequest.t) (db : Database) :
  (session_of (ConfirmDispenseRequest.token body) db = None ->
   confirm_dispense now body db = (Raise SessionNotFound, db))
  /\ (forall ps : Doc PumpSession.t,
        session_of (ConfirmDispenseRequest.token body) db = Some ps ->
        PumpSession.used (fields ps) = true ->
        confirm_dispense now body db = (Raise SessionAlreadyUsed, db)).
Proof.
  rewrite confirm_dispense_steps. unfold confirm_steps. split.
  - intros ->. reflexivity.
  - intros ps -> ->. reflexivity.
Qed.

Lemma confirm_dispense_session_errors_witness :
  confirm_dispense t0 (dispense token_b "G91" (of_Z 10)) demo_session_db
  = (Raise SessionNotFound, demo_session_db).
Proof.
  apply (proj1 (confirm_dispense_session_errors t0
                  (dispense token_b "G91" (of_Z 10)) demo_session_db)).
  vm_compute. reflexivity.
Defined.

Lemma check_nil (ok : bool) (field : string) (rest : list string) :
  (check ok field ++ rest)%list = [] -> ok = true /\ rest = [].
Proof. destruct ok; simpl; [auto | discriminate]. Qed.

Lemma failing_fields_nil (m : FuelTransaction.t) :
  failing_fields m = [] ->
  is_grade (FuelTransaction.grade m) = true
  /\ fle (FuelTransaction.liters m) zero = false
  /\ fle (FuelTransaction.price_per_liter m) zero = false
  /\ fle (FuelTransaction.total m) zero = false.
Proof.
  unfold failing_fields, gt0. intros H.
  apply check_nil in H. destruct H as [Hg H].
  apply check_nil in H. destruct H as [Hl H].
  apply check_nil in H. destruct H as [Hp H].
  rewrite <- (app_nil_r (check _ "total")) in H.
  apply check_nil in H. destruct H as [Ht _].
  apply negb_true_iff in Hl, Hp, Ht. auto.
Qed.

Lemma consumed_other (now : datetime) (ps : Doc PumpSession.t) (db : Database)
    (tok : string) (other : Doc PumpSession.t) :
  find_one (by_token tok) (pumpsession db) = Some other ->
  _id other <> _id ps ->
  find_one (by_token tok) (consumed now ps db) = Some other.
Proof.
  unfold consumed, find_one.
  induction (pumpsession db) as [|x rest IH]; simpl; [discriminate|].
  intros Hfind Hne.
  destruct (by_token tok x) eqn:Hx.
  - injection Hfind as ->.
    destruct (by_id (_id ps) other) eqn:Hid.
    + apply by_id_eq in Hid. contradiction.
    + simpl. rewrite Hx. reflexivity.
  - destruct (by_id (_id ps) x) eqn:Hid; simpl.
    + unfold by_token in *. cbn [set_fields fields with_used PumpSession.token].
      rewrite Hx. exact Hfind.
    + rewrite Hx. apply IH; assumption.
Qed.

(** X10. What a confirmation that went through has done.  The volume was not
    [<= 0] and the total neither, and the total was not above the balance.
    The reply, the recorded transaction and the stored balance agree: the
    transaction carries the reply's volume, price, total and receipt
    number, with status [confirmed], and [get_balance] then answers with
    the reply's new balance.  Nothing else moved: no credit event, no other
    customer, no session of another identity. *)
Theorem confirm_dispense_record (now : datetime) (body : ConfirmDispenseRequest.t)
    (db db' : Database) (r : ConfirmReply.t) :
  confirm_dispense now body db = (Return r, db') ->
  exists (cust : Doc Customer.t) (ps : Doc PumpSession.t) (tx : Doc FuelTransaction.t),
    customer_of (ConfirmReply.customer_id r) db = Some cust
    /\ session_of (ConfirmDispenseRequest.token body) db = Some ps
    /\ fle (ConfirmReply.liters r) zero = false
    /\ fle (ConfirmReply.total r) zero = false
    /\ fgt (ConfirmReply.total r) (Customer.balance (fields cust)) = false
    /\ ConfirmReply.total r
       = round2 (fmul (ConfirmDispenseRequest.liters body) (ConfirmReply.price_per_liter r))
    /\ ConfirmReply.new_balance r
       = round2 (fsub (Customer.balance (fields cust)) (ConfirmReply.total r))
    /\ dict_get FUEL_PRICES (ConfirmDispenseRequest.grade body)
       = Some (ConfirmReply.price_per_liter r)
    /\ fueltransaction db' = (fueltransaction db ++ [tx])%list
    /\ transaction_ok tx
    /\ FuelTransaction.customer_id (fields tx) = ConfirmReply.customer_id r
    /\ FuelTransaction.liters (fields tx) = ConfirmReply.liters r
    /\ FuelTransaction.price_per_liter (fields tx) = ConfirmReply.price_per_liter r
    /\ FuelTransaction.total (fields tx) = ConfirmReply.total r
    /\ FuelTransaction.receipt_no (fields tx) = Some (ConfirmReply.receipt_no r)
    /\ FuelTransaction.pump_id (fields tx) = PumpSession.pump_id (fields ps)
    /\ get_balance (ConfirmReply.customer_id r) db'
       = (Return {| BalanceReply.balance := ConfirmReply.new_balance r;
                    BalanceReply.name := Customer.name (fields cust) |}, db')
    /\ creditevent db' = creditevent db
    /\ (forall other_id other,
          customer_of other_id db = Some other -> _id other <> _id cust ->
          customer_of other_id db' = Some other)
    /\ (forall tok other,
          session_of tok db = Some other -> _id other <> _id ps ->
          session_of tok db' = Some other).
Proof.
  rewrite confirm_dispense_steps. unfold confirm_steps.
  destruct (session_of _ db) as [ps|] eqn:Hps; [|discriminate].
  destruct (PumpSession.used (fields ps)); [discriminate|].
  destruct (_ <? now)%Z; [discriminate|].
  destruct (customer_of _ db) as [cust|] eqn:Hcust; [|discriminate].
  destruct (dict_get FUEL_PRICES _) as [price|] eqn:Hprice; [|discriminate].
  destruct (fgt _ _) eqn:Hgt; [discriminate|].
  unfold settle. destruct (failing_fields _) eqn:Hok; [|discriminate].
  intros H. injection H as <- <-.
  apply failing_fields_nil in Hok.
  cbn [transaction_of FuelTransaction.grade FuelTransaction.liters
       FuelTransaction.price_per_liter FuelTransaction.total] in Hok.
  destruct Hok as (Hg & Hl & Hp & Ht).
  exists cust, ps. eexists.
  cbn [reply_of ConfirmReply.customer_id ConfirmReply.liters ConfirmReply.total
       ConfirmReply.price_per_liter ConfirmReply.new_balance ConfirmReply.receipt_no
       settled fueltransaction creditevent].
  repeat match goal with |- _ /\ _ => split end;
    try reflexivity; try assumption.
  - unfold transaction_ok. cbn [new_doc fields transaction_of
      FuelTransaction.grade FuelTransaction.liters FuelTransaction.price_per_liter
      FuelTransaction.total FuelTransaction.status]. auto.
  - rewrite get_balance_run.
    erewrite (balance_written_self now cust _ db) by (reflexivity || exact Hcust).
    reflexivity.
  - intros other_id other Hother Hne.
    eapply (balance_written_other now cust _ db); eauto. reflexivity.
  - intros tok other Hother Hne. unfold session_of in *.
    cbn [pumpsession]. apply consumed_other; assumption.
Qed.

Lemma confirm_dispense_record_witness :
  exists (r : ConfirmReply.t) (db' : Database),
    confirm_dispense (t0 + 1000000) (dispense token_a "G91" (of_Z 10)) demo_session_db
    = (Return r, db')
    /\ get_balance (ConfirmReply.customer_id r) db'
       = (Return {| BalanceReply.balance := ConfirmReply.new_balance r;
                    BalanceReply.name := "Alice" |}, db').
Proof.
  destruct (confirm_dispense (t0 + 1000000) (dispense token_a "G91" (of_Z 10))
              demo_session_db) as [o db'] eqn:H.
  assert (Ho : exists r, o = Return r).
  { vm_compute in H. injection H as <- _. eexists. reflexivity. }
  destruct Ho as [r ->]. exists r, db'. split; [reflexivity|].
  destruct (confirm_dispense_record _ _ _ _ _ H)
    as (cust & ps & tx & Hcust & _ & _ & _ & _ & _ & _ & _ & _ & _ & _ & _ & _ & _
        & _ & _ & Hget & _).
  rewrite Hget. do 2 f_equal. f_equal.
  vm_compute in H. injection H as <- _. vm_compute in Hcust.
  injection Hcust as <-. reflexivity.
Defined.



(** X12. For a known customer, [calc_liters] refuses exactly the grades that are
    not "G91", "G95" or "Diesel" (the names are case sensitive), with
    "Invalid grade". *)
Theorem calc_liters_grades (customer_id : string) (body : CalculateLitersQuery.t)
    (db : Database) (cust : Doc Customer.t) :
  customer_of customer_id db = Some cust ->
  (fst (calc_liters customer_id body db) = Raise InvalidGrade
   <-> ~ In (CalculateLitersQuery.grade body) ["G91"; "G95"; "Diesel"])
  /\ (In (CalculateLitersQuery.grade body) ["G91"; "G95"; "Diesel"] ->
      exists r, fst (calc_liters customer_id body db) = Return r
                /\ LitersReply.max_liters r
                   = round2 (fdiv (Customer.balance (fields cust)) (LitersReply.price r))
                /\ dict_get FUEL_PRICES (CalculateLitersQuery.grade body)
                   = Some (LitersReply.price r)).
Proof.
  intros Hcust. rewrite calc_liters_run, Hcust. cbn [fst].
  destruct (dict_get FUEL_PRICES (CalculateLitersQuery.grade body))
    as [price|] eqn:Hprice.
  - assert (Hin : In (CalculateLitersQuery.grade body) ["G91"; "G95"; "Diesel"]).
    { apply FUEL_PRICES_grade in Hprice. destruct Hprice as [Hg _].
      unfold is_grade in Hg. simpl.
      apply orb_prop in Hg. destruct Hg as [Hg|Hg].
      - apply orb_prop in Hg. destruct Hg as [Hg|Hg];
          apply String.eqb_eq in Hg; auto.
      - apply String.eqb_eq in Hg; auto. }
    split.
    + split; [discriminate | intros Hn; contradiction].
    + intros _. eexists. split; [reflexivity|]. split; reflexivity.
  - assert (Hnin : ~ In (CalculateLitersQuery.grade body) ["G91"; "G95"; "Diesel"]).
    { intros Hin. simpl in Hin.
      destruct Hin as [E|[E|[E|[]]]]; rewrite <- E in Hprice;
        vm_compute in Hprice; discriminate. }
    split.
    + split; [intros _; exact Hnin | reflexivity].
    + intros Hin. contradiction.
Qed.

Lemma calc_liters_grades_witness :
  fst (calc_liters alice_id {| CalculateLitersQuery.grade := "diesel" |} demo_db)
  = Raise InvalidGrade.
Proof.
  apply (proj1 (calc_liters_grades alice_id
                  {| CalculateLitersQuery.grade := "diesel" |} demo_db
                  (account alice_id "Alice" "0801" (cents 5000) true) eq_refl)).
  simpl. intros [E|[E|[E|[]]]]; discriminate.
Defined.

(* ===================================================================== *)
(** ** Creating customers and logging in *)
(* ===================================================================== *)







(** X15. Login answers exactly when some stored customer has the phone and the
    PIN and is active, and then with the identity, name and balance of the
    first such customer; otherwise, so for a wrong PIN and for a
    deactivated customer, it is 401 "Invalid credentials". *)
Theorem login_credentials (req : LoginRequest.t) (db : Database) :
  (forall r : LoginReply.t,
     fst (login req db) = Return r ->
     exists user : Doc Customer.t,
       In user (customer db)
       /\ Customer.phone (fields user) = LoginRequest.phone req
       /\ Customer.pin (fields user) = LoginRequest.pin req
       /\ Customer.active (fields user) = true
       /\ LoginReply.customer_id r = str_of_ObjectId (_id user)
       /\ LoginReply.name r = Customer.name (fields user)
       /\ LoginReply.balance r = Customer.balance (fields user))
  /\ ((forall user : Doc Customer.t,
         In user (customer db) ->
         Customer.phone (fields user) = LoginRequest.phone req ->
         Customer.pin (fields user) = LoginRequest.pin req ->
         Customer.active (fields user) = false) ->
      fst (login req db) = Raise InvalidCredentials).
Proof.
  rewrite login_run. cbn [fst].
  destruct (find_one (by_credentials req) (customer db)) as [user|] eqn:Hfind.
  - apply find_one_In in Hfind. destruct Hfind as [Hin Hcred].
    unfold by_credentials in Hcred.
    apply andb_prop in Hcred. destruct Hcred as [Hcred Hactive].
    apply andb_prop in Hcred. destruct Hcred as [Hphone Hpin].
    apply String.eqb_eq in Hphone, Hpin. apply Bool.eqb_prop in Hactive.
    split.
    + intros r E. injection E as <-. exists user. repeat split; assumption.
    + intros Hnone. specialize (Hnone user Hin Hphone Hpin). congruence.
  - split; [discriminate | reflexivity].
Qed.

Lemma login_credentials_witness :
  fst (login {| LoginRequest.phone := "0802"; LoginRequest.pin := "4321" |} demo_db)
  = Raise InvalidCredentials.
Proof.
  apply (proj2 (login_credentials
                  {| LoginRequest.phone := "0802"; LoginRequest.pin := "4321" |}
                  demo_db)).
  intros user [<-|[<-|[]]]; simpl; intros Hphone Hpin;
    [discriminate | reflexivity].
Defined.

(** X16. The id a login answers with is accepted by the customer endpoints and
    selects the customer who logged in, when identities are unique and have
    twelve bytes. *)
Theorem login_then_get_balance (req : LoginRequest.t) (db : Database)
    (r : LoginReply.t) :
  NoDup (map _id (customer db)) ->
  Forall (fun c => twelve_bytes (_id c)) (customer db) ->
  fst (login req db) = Return r ->
  get_balance (LoginReply.customer_id r) db
  = (Return {| BalanceReply.balance := LoginReply.balance r;
               BalanceReply.name := LoginReply.name r |}, db).
Proof.
  intros Hnd Hbytes. rewrite login_run. cbn [fst].
  destruct (find_one (by_credentials req) (customer db)) as [user|] eqn:Hfind;
    [|discriminate].
  intros E. injection E as <-. cbn [LoginReply.customer_id LoginReply.balance
    LoginReply.name].
  apply find_one_In in Hfind. destruct Hfind as [Hin _].
  rewrite get_balance_run. unfold customer_of.
  rewrite Forall_forall in Hbytes.
  rewrite (str_of_ObjectId_parses _ (Hbytes _ Hin)).
  assert (Hsel : find_one (by_id (_id user)) (customer db) = Some user).
  { clear - Hnd Hin. unfold find_one.
    induction (customer db) as [|x rest IH]; simpl in *; [contradiction|].
    inversion Hnd as [|? ? Hnotin Hnd']; subst.
    destruct Hin as [->|Hin].
    - unfold by_id. rewrite N.eqb_refl. reflexivity.
    - unfold by_id at 1. destruct (N.eqb_spec (_id x) (_id user)) as [E|_].
      + exfalso. apply Hnotin. rewrite E. apply in_map, Hin.
      + apply IH; assumption. }
  rewrite Hsel. reflexivity.
Qed.

Lemma login_then_get_balance_witness :
  get_balance
    (LoginReply.customer_id
       {| LoginReply.customer_id := alice_id; LoginReply.name := "Alice";
          LoginReply.balance := cents 5000 |}) demo_db
  = (Return {| BalanceReply.balance := cents 5000; BalanceReply.name := "Alice" |},
     demo_db).
Proof.
  apply (login_then_get_balance
           {| LoginRequest.phone := "0801"; LoginRequest.pin := "4321" |} demo_db
           {| LoginReply.customer_id := alice_id; LoginReply.name := "Alice";
              LoginReply.balance := cents 5000 |}).
  - vm_compute. apply NoDup_cons; [intros [H|[]]; discriminate|].
    apply NoDup_cons; [intros []|constructor].
  - repeat constructor; vm_compute; reflexivity.
  - vm_compute. reflexivity.
Defined.

(* ===================================================================== *)
(** ** What no sequence of calls undoes *)
(* ===================================================================== *)

Section Growth.

Context {A : Type} (R : A -> A -> Prop).
Hypothesis R_refl : forall x, R x x.
Hypothesis R_trans : forall x y z, R x y -> R y z -> R x z.

Lemma Forall2_same (l : list A) : Forall2 R l l.
Proof. induction l; constructor; auto. Qed.

Lemma grows_refl (l : list A) : grows R l l.
Proof. exists l, []. rewrite app_nil_r. split; [reflexivity | apply Forall2_same]. Qed.

Lemma grows_app (l added : list A) : grows R l (l ++ added).
Proof. exists l, added. split; [reflexivity | apply Forall2_same]. Qed.

Lemma grows_Forall2 (l l' : list A) : Forall2 R l l' -> grows R l l'.
Proof. intros H. exists l', []. rewrite app_nil_r. auto. Qed.

Lemma grows_trans (l1 l2 l3 : list A) :
  grows R l1 l2 -> grows R l2 l3 -> grows R l1 l3.
Proof.
  intros (k1 & a1 & -> & H1) (k2 & a2 & -> & H2).
  apply Forall2_app_inv_l in H2. destruct H2 as (k2a & k2b & Ha & Hb & ->).
  exists k2a, (k2b ++ a2)%list. split; [symmetry; apply app_assoc|].
  apply Forall2_compose with (l2 := k1); assumption.
Qed.

Lemma grows_nth_error (l l' : list A) (i : nat) (x : A) :
  grows R l l' -> nth_error l i = Some x ->
  exists y, nth_error l' i = Some y /\ R x y.
Proof.
  intros (kept & added & -> & H) Hx.
  destruct (Forall2_nth_error _ _ _ _ _ H Hx) as (y & Hy & Hxy).
  exists y. split; [|exact Hxy].
  rewrite nth_error_app1; [exact Hy|].
  apply nth_error_Some. congruence.
Qed.

End Growth.

Lemma grows_update_one {M : Type} (R : Doc M -> Doc M -> Prop)
    (filter : Doc M -> bool) (upd : Doc M -> Doc M) (c : list (Doc M)) :
  (forall d, R d d) ->
  (forall d, find_one filter c = Some d -> R d (upd d)) ->
  grows R c (update_one filter upd c).
Proof. intros Hrefl Hupd. apply grows_Forall2, update_one_Forall2; assumption. Qed.

Lemma extends_refl {A : Type} (l : list A) : extends l l.
Proof. exists []. symmetry. apply app_nil_r. Qed.

Lemma extends_app {A : Type} (l added : list A) : extends l (l ++ added).
Proof. exists added. reflexivity. Qed.

Lemma extends_trans {A : Type} (l1 l2 l3 : list A) :
  extends l1 l2 -> extends l2 l3 -> extends l1 l3.
Proof.
  intros [a1 ->] [a2 ->]. exists (a1 ++ a2)%list. symmetry. apply app_assoc.
Qed.

Lemma session_later_refl (s : Doc PumpSession.t) : session_later s s.
Proof. unfold session_later. auto 10. Qed.

Lemma session_later_trans (s1 s2 s3 : Doc PumpSession.t) :
  session_later s1 s2 -> session_later s2 s3 -> session_later s1 s3.
Proof.
  unfold session_later.
  intros (A1 & B1 & C1 & D1 & E1 & F1) (A2 & B2 & C2 & D2 & E2 & F2).
  repeat split; try congruence. auto.
Qed.

(** A customer at a later time, with the sign of the balance. *)
Lemma customer_later_refl (c : Doc Customer.t) : customer_later c c /\ keeps_sign c c.
Proof. unfold customer_later, keeps_sign. auto 10. Qed.

Lemma customer_later_trans (c1 c2 c3 : Doc Customer.t) :
  customer_later c1 c2 /\ keeps_sign c1 c2 ->
  customer_later c2 c3 /\ keeps_sign c2 c3 ->
  customer_later c1 c3 /\ keeps_sign c1 c3.
Proof.
  unfold customer_later.
  intros [(A1 & B1 & C1 & D1 & E1 & F1) K1] [(A2 & B2 & C2 & D2 & E2 & F2) K2].
  split; [repeat split; congruence | eapply keeps_sign_trans; eassumption].
Qed.

Lemma balance_written_later (now : datetime) (customer_id : string)
    (cust : Doc Customer.t) (b : float) (db : Database) :
  customer_of customer_id db = Some cust ->
  (balance_ok cust -> never_negative b = true) ->
  grows (fun c c' => customer_later c c' /\ keeps_sign c c')
    (customer db) (balance_written now cust b db).
Proof.
  unfold customer_of, balance_written.
  destruct (ObjectId_of_str customer_id) as [oid|]; [|discriminate].
  intros Hcust Hb.
  destruct (find_one_In _ _ _ Hcust) as [_ Hid]. apply by_id_eq in Hid.
  rewrite Hid. apply grows_update_one; [apply customer_later_refl|].
  intros d Hd. rewrite Hcust in Hd. injection Hd as <-.
  unfold customer_later, keeps_sign. cbn. auto 10.
Qed.

(** One call, collection by collection. *)
Lemma serve_call_later (c : Call) (db : Database) :
  grows (fun c c' => customer_later c c' /\ keeps_sign c c')
    (customer db) (customer (serve_call c db))
  /\ extends (creditevent db) (creditevent (serve_call c db))
  /\ extends (fueltransaction db) (fueltransaction (serve_call c db))
  /\ grows session_later (pumpsession db) (pumpsession (serve_call c db)).
Proof.
  assert (Hsame :
    grows (fun c c' => customer_later c c' /\ keeps_sign c c')
      (customer db) (customer db)
    /\ extends (creditevent db) (creditevent db)
    /\ extends (fueltransaction db) (fueltransaction db)
    /\ grows session_later (pumpsession db) (pumpsession db)).
  { repeat split; try apply extends_refl;
      apply grows_refl; auto using customer_later_refl, session_later_refl. }
  destruct Hsame as (Hc & He & Ht & Hs).
  destruct c as [[now cid body | now urandom cid body | cid body | now body]
                | now req | req | cid | cid]; cbn [serve_call serve].
  - rewrite topup_steps. destruct (fle _ zero) eqn:Hle; [auto|].
    destruct (customer_of cid db) as [cust|] eqn:Hcust; [|auto].
    cbn [snd customer creditevent fueltransaction pumpsession].
    repeat split; auto using extends_app.
    apply (balance_written_later now cid); [assumption|].
    intros Hok. apply fadd_never_negative; assumption.
  - rewrite start_pump_session_steps.
    destruct (customer_of cid db); [|auto].
    cbn [snd customer creditevent fueltransaction pumpsession].
    repeat split; auto. apply grows_app. apply session_later_refl.
  - rewrite calc_liters_run. auto.
  - rewrite confirm_dispense_steps. unfold confirm_steps.
    destruct (session_of _ db) as [ps|] eqn:Hps; [|auto].
    destruct (PumpSession.used (fields ps)); [auto|].
    destruct (_ <? now)%Z; [auto|].
    destruct (customer_of _ db) as [cust|] eqn:Hcust; [|auto].
    destruct (dict_get FUEL_PRICES _) as [price|]; [|auto].
    destruct (fgt _ _) eqn:Hgt; [auto|].
    assert (Hw : forall b,
      (balance_ok cust -> never_negative b = true) ->
      grows (fun c c' => customer_later c c' /\ keeps_sign c c')
        (customer db) (balance_written now cust b db)).
    { intros b Hb. eapply balance_written_later; eassumption. }
    assert (Hnew : balance_ok cust ->
      never_negative
        (round2 (fsub (Customer.balance (fields cust))
           (round2 (fmul (ConfirmDispenseRequest.liters body) price)))) = true).
    { intros Hok. apply round2_never_negative, fsub_never_negative; assumption. }
    unfold settle. destruct (failing_fields _);
      cbn [snd customer creditevent fueltransaction pumpsession set_customer settled].
    + repeat split; auto using extends_app.
      unfold consumed. apply grows_update_one; [apply session_later_refl|].
      intros d _. unfold session_later. cbn. auto 10.
    + repeat split; auto.
  - rewrite create_customer_steps.
    destruct (find_one _ (customer db)); [auto|].
    destruct (_ && _); [|auto].
    cbn [snd customer creditevent fueltransaction pumpsession].
    repeat split; auto. apply grows_app. apply customer_later_refl.
  - rewrite login_run. auto.
  - rewrite get_balance_run. auto.
  - rewrite credit_history_run. auto.
Qed.

Lemma run_calls_later (cs : list Call) (db : Database) :
  grows (fun c c' => customer_later c c' /\ keeps_sign c c')
    (customer db) (customer (run_calls cs db))
  /\ extends (creditevent db) (creditevent (run_calls cs db))
  /\ extends (fueltransaction db) (fueltransaction (run_calls cs db))
  /\ grows session_later (pumpsession db) (pumpsession (run_calls cs db)).
Proof.
  unfold run_calls. revert db.
  induction cs as [|c cs IH]; intros db; simpl.
  - repeat split; try apply extends_refl;
      apply grows_refl; auto using customer_later_refl, session_later_refl.
  - destruct (serve_call_later c db) as (Hc & He & Ht & Hs).
    destruct (IH (serve_call c db)) as (Hc' & He' & Ht' & Hs').
    repeat split.
    + eapply grows_trans; [apply customer_later_trans | exact Hc | exact Hc'].
    + eapply extends_trans; eassumption.
    + eapply extends_trans; eassumption.
    + eapply grows_trans; [apply session_later_trans | exact Hs | exact Hs'].
Qed.

(** X17. The two ledgers are append-only: whatever calls are served, to whatever
    endpoints and with whatever outcomes, the credit events and the fuel
    transactions stored before are still there afterwards, unchanged and in
    the same order, with the new ones after them. *)
Theorem ledgers_append_only (cs : list Call) (db : Database) :
  extends (creditevent db) (creditevent (run_calls cs db))
  /\ extends (fueltransaction db) (fueltransaction (run_calls cs db)).
Proof. destruct (run_calls_later cs db) as (_ & He & Ht & _). auto. Qed.

(** X18. A stored session is never deleted and never altered, except that [used]
    goes from false to true: after any sequence of calls it is in the same
    place, with the same identity, token, customer, pump and expiry, and if
    it was used it still is. *)
Theorem session_used_monotone (cs : list Call) (db : Database) (i : nat)
    (s : Doc PumpSession.t) :
  nth_error (pumpsession db) i = Some s ->
  exists s' : Doc PumpSession.t,
    nth_error (pumpsession (run_calls cs db)) i = Some s' /\ session_later s s'.
Proof.
  destruct (run_calls_later cs db) as (_ & _ & _ & Hs).
  intros Hi. exact (grows_nth_error _ _ _ _ _ Hs Hi).
Qed.

Lemma session_used_monotone_witness :
  exists s' : Doc PumpSession.t,
    nth_error (pumpsession
                 (run_calls [Protocol (ConfirmDispense (t0 + 1000000)
                                         (dispense token_a "G91" (of_Z 10)));
                             Protocol (TopUp (t0 + 2000000) alice_id (credit (cents 100)))]
                    demo_session_db)) 0 = Some s'
    /\ PumpSession.token (fields s') = token_a.
Proof.
  destruct (session_used_monotone
              [Protocol (ConfirmDispense (t0 + 1000000) (dispense token_a "G91" (of_Z 10)));
               Protocol (TopUp (t0 + 2000000) alice_id (credit (cents 100)))]
              demo_session_db 0
              (new_doc t0 demo_db
                 {| PumpSession.token := token_a;
                    PumpSession.customer_id := alice_id;
                    PumpSession.pump_id := "pump-1";
                    PumpSession.expires_at := t0 + five_minutes;
                    PumpSession.used := false |}) eq_refl)
    as (s' & Hs' & _ & Htok & _).
  exists s'. split; [exact Hs' | exact Htok].
Defined.

(** X19. A stored customer is never deleted, and no endpoint changes anything of
    it but the balance: identity, name, phone, email, PIN and the [active]
    flag stay as they are (nothing deactivates or reactivates an account),
    and a balance that was not negative is not negative afterwards. *)
Theorem customer_only_balance_changes (cs : list Call) (db : Database) (i : nat)
    (c : Doc Customer.t) :
  nth_error (customer db) i = Some c ->
  exists c' : Doc Customer.t,
    nth_error (customer (run_calls cs db)) i = Some c'
    /\ customer_later c c'
    /\ (never_negative (Customer.balance (fields c)) = true ->
        never_negative (Customer.balance (fields c')) = true).
Proof.
  destruct (run_calls_later cs db) as (Hc & _).
  intros Hi. destruct (grows_nth_error _ _ _ _ _ Hc Hi) as (c' & Hc' & Hlater & Hsign).
  exists c'. split; [assumption|]. split; [assumption|]. exact (proj2 Hsign).
Qed.

Lemma customer_only_balance_changes_witness :
  exists c' : Doc Customer.t,
    nth_error (customer
                 (run_calls [Protocol (TopUp t0 bob_id (credit (cents 100)))] demo_db)) 1
    = Some c'
    /\ Customer.active (fields c') = false.
Proof.
  destruct (customer_only_balance_changes
              [Protocol (TopUp t0 bob_id (credit (cents 100)))] demo_db 1
              (account bob_id "Bob" "0802" (cents 5000) false) eq_refl)
    as (c' & Hc' & (_ & _ & _ & _ & _ & Hactive) & _).
  exists c'. split; [exact Hc' | exact Hactive].
Defined.

Lemma phones_balance_written (now : datetime) (cust : Doc Customer.t) (b : float)
    (db : Database) :
  map (fun c => Customer.phone (fields c)) (balance_written now cust b db)
  = phones db.
Proof.
  unfold balance_written, phones.
  induction (customer db) as [|x rest IH]; simpl; [reflexivity|].
  destruct (by_id (_id cust) x); simpl; [reflexivity | rewrite IH; reflexivity].
Qed.

Lemma find_one_by_phone_None (phone : string) (db : Database) :
  find_one (by_phone phone) (customer db) = None -> ~ In phone (phones db).
Proof.
  intros Hfind Hin. unfold phones in Hin.
  apply in_map_iff in Hin. destruct Hin as (c & Hc & Hin).
  apply (find_none _ _ Hfind) in Hin. unfold by_phone in Hin.
  rewrite Hc, String.eqb_refl in Hin. discriminate.
Qed.

(** One call keeps what the schemas ask of the stored records, and the
    phones distinct. *)
Lemma serve_call_records (c : Call) (db : Database) :
  (Forall transaction_ok (fueltransaction db) ->
   Forall transaction_ok (fueltransaction (serve_call c db)))
  /\ (Forall creditevent_ok (creditevent db) ->
      Forall creditevent_ok (creditevent (serve_call c db)))
  /\ (NoDup (phones db) -> NoDup (phones (serve_call c db))).
Proof.
  destruct c as [[now cid body | now urandom cid body | cid body | now body]
                | now req | req | cid | cid]; cbn [serve_call serve].
  - rewrite topup_steps. destruct (fle _ zero) eqn:Hle; [auto|].
    destruct (customer_of cid db) as [cust|]; [|auto].
    unfold phones. cbn [snd customer creditevent fueltransaction].
    rewrite phones_balance_written.
    repeat split; auto. intros He. apply Forall_app. split; [assumption|].
    repeat constructor. exact Hle.
  - rewrite start_pump_session_steps. destruct (customer_of cid db); auto.
  - rewrite calc_liters_run. auto.
  - rewrite confirm_dispense_steps. unfold confirm_steps.
    destruct (session_of _ db) as [ps|]; [|auto].
    destruct (PumpSession.used (fields ps)); [auto|].
    destruct (_ <? now)%Z; [auto|].
    destruct (customer_of _ db) as [cust|]; [|auto].
    destruct (dict_get FUEL_PRICES _) as [price|]; [|auto].
    destruct (fgt _ _); [auto|].
    unfold settle. destruct (failing_fields _) eqn:Hok; unfold phones;
      cbn [snd customer creditevent fueltransaction set_customer settled];
      rewrite phones_balance_written; repeat split; auto.
    intros Ht. apply Forall_app. split; [assumption|].
    apply failing_fields_nil in Hok. destruct Hok as (Hg & Hl & Hp & Htot).
    repeat constructor; assumption.
  - rewrite create_customer_steps.
    destruct (find_one _ (customer db)) eqn:Hfind; [auto|].
    destruct (_ && _); [|auto].
    unfold phones. cbn [snd customer creditevent fueltransaction].
    repeat split; auto. intros Hnd. rewrite map_app.
    apply find_one_by_phone_None in Hfind.
    apply NoDup_app; [exact Hnd | repeat constructor; intros [] |].
    cbn. intros x Hx [<-|[]]. contradiction.
  - rewrite login_run. auto.
  - rewrite get_balance_run. auto.
  - rewrite credit_history_run. auto.
Qed.



(** X21. Phones stay distinct: registration is the only endpoint that adds a
    customer, it refuses a phone that is taken, and nothing changes a
    phone. *)
Theorem phones_stay_distinct (cs : list Call) (db : Database) :
  NoDup (phones db) -> NoDup (phones (run_calls cs db)).
Proof.
  unfold run_calls. revert db.
  induction cs as [|c cs IH]; intros db Hnd; simpl; [assumption|].
  apply IH. apply (proj2 (proj2 (serve_call_records c db))). exact Hnd.
Qed.

Lemma phones_stay_distinct_witness :
  NoDup (phones
           (run_calls
              [CreateCustomerCall t0
                 {| CreateCustomer.name := "Carol"; CreateCustomer.phone := "0801";
                    CreateCustomer.email := None; CreateCustomer.pin := "2468" |};
               CreateCustomerCall t0
                 {| CreateCustomer.name := "Dave"; CreateCustomer.phone := "0804";
                    CreateCustomer.email := None; CreateCustomer.pin := "1357" |}]
              demo_db)).
Proof.
  apply phones_stay_distinct. vm_compute.
  apply NoDup_cons; [intros [H|[]]; discriminate|].
  apply NoDup_cons; [intros []|constructor].
Defined.

(* ===================================================================== *)
(** ** The credit history *)
(* ===================================================================== *)

Lemma insert_newest_perm {M : Type} (d : Doc M) (l : list (Doc M)) :
  Permutation (insert_newest d l) (d :: l).
Proof.
  induction l as [|x rest IH]; simpl; [reflexivity|].
  destruct (created_at x <=? created_at d)%Z; [reflexivity|].
  rewrite IH. apply perm_swap.
Qed.

Lemma newest_first_perm {M : Type} (l : list (Doc M)) :
  Permutation (newest_first l) l.
Proof.
  induction l as [|d rest IH]; simpl; [reflexivity|].
  rewrite insert_newest_perm, IH. reflexivity.
Qed.

Lemma insert_newest_sorted {M : Type} (d : Doc M) (l : list (Doc M)) :
  newest_first_docs l -> newest_first_docs (insert_newest d l).
Proof.
  unfold newest_first_docs.
  induction l as [|x rest IH]; simpl; [auto|]. intros [Hx Hrest].
  destruct (Z.leb_spec (created_at x) (created_at d)) as [Hle|Hgt]; simpl.
  - split; [|auto]. constructor; [exact Hle|].
    revert Hx. apply Forall_impl. intros y Hy. lia.
  - split; [|auto].
    rewrite Forall_forall in *. intros y Hy.
    apply in_map_iff in Hy. destruct Hy as (z & <- & Hz).
    apply (Permutation_in _ (insert_newest_perm d rest)) in Hz.
    destruct Hz as [<-|Hz]; [simpl; lia|].
    apply Hx. apply in_map, Hz.
Qed.

Lemma newest_first_is_sorted {M : Type} (l : list (Doc M)) :
  newest_first_docs (newest_first l).
Proof.
  induction l as [|d rest IH]; simpl; [exact I|].
  apply insert_newest_sorted, IH.
Qed.

(** X22. The credit history never raises and checks no id: for any text it lists
    the credit events filed under exactly that text, each once, the newest
    first; for a text nothing is filed under, a malformed or unknown id
    included, the list is empty. *)
Theorem credit_history_lists (customer_id : string) (db : Database) :
  exists events : list (Listed CreditEvent.t),
    credit_history customer_id db = (Return events, db)
    /\ Permutation events
         (map listed (filter (by_customer_id customer_id) (creditevent db)))
    /\ newest_first_sorted events
    /\ ((forall d, In d (creditevent db) ->
                   CreditEvent.customer_id (fields d) <> customer_id) ->
        events = []).
Proof.
  rewrite credit_history_run. eexists. split; [reflexivity|].
  split; [apply Permutation_map, newest_first_perm|].
  split; [apply newest_first_is_sorted|].
  intros Hnone.
  replace (filter (by_customer_id customer_id) (creditevent db)) with
    (@nil (Doc CreditEvent.t)); [reflexivity|].
  symmetry. induction (creditevent db) as [|d rest IH]; simpl; [reflexivity|].
  unfold by_customer_id at 1.
  destruct (String.eqb_spec (CreditEvent.customer_id (fields d)) customer_id) as [E|_].
  - exfalso. apply (Hnone d); [left; reflexivity | exact E].
  - apply IH. intros d' Hd'. apply Hnone. right. exact Hd'.
Qed.

Lemma credit_history_lists_witness :
  credit_history "no-such-id" demo_db = (Return [], demo_db).
Proof.
  destruct (credit_history_lists "no-such-id" demo_db)
    as (events & Hrun & _ & _ & Hempty).
  rewrite Hrun. rewrite Hempty; [reflexivity|]. intros d [].
Defined.

(** X23. A top-up that answered shows in the history of the id as it was
    written, once, and in no other history: the history of any other text,
    another spelling of the same identity included, is what it was. *)
Theorem credit_history_after_topup (now : datetime) (customer_id : string)
    (body : TopUpRequest.t) (db db' : Database) (r : TopUpReply.t) :
  topup now customer_id body db = (Return r, db') ->
  (exists (event : Doc CreditEvent.t) (before after : list (Listed CreditEvent.t)),
     credit_history customer_id db = (Return before, db)
     /\ credit_history customer_id db' = (Return after, db')
     /\ Permutation after (listed event :: before)
     /\ CreditEvent.amount (fields event) = TopUpRequest.amount body
     /\ CreditEvent.note (fields event) = TopUpRequest.note body)
  /\ (forall other : string,
        other <> customer_id ->
        fst (credit_history other db') = fst (credit_history other db)).
Proof.
  rewrite topup_steps. destruct (fle _ zero); [discriminate|].
  destruct (customer_of customer_id db) as [cust|]; [|discriminate].
  intros H. injection H as <- <-. rewrite !credit_history_run.
  cbn [creditevent fst]. split.
  - exists (new_doc now db
              {| CreditEvent.customer_id := customer_id;
                 CreditEvent.amount := TopUpRequest.amount body;
                 CreditEvent.note := TopUpRequest.note body |}).
    eexists. eexists. split; [reflexivity|]. split; [reflexivity|].
    rewrite filter_app. cbn [filter]. unfold by_customer_id at 2.
    cbn [new_doc fields CreditEvent.customer_id]. rewrite String.eqb_refl.
    split; [|repeat split; reflexivity].
    change (listed ?e :: map listed ?l) with (map listed (e :: l)).
    apply Permutation_map.
    rewrite newest_first_perm, Permutation_app_comm. simpl.
    apply perm_skip. symmetry. apply newest_first_perm.
  - intros other Hne. rewrite credit_history_run. cbn [fst creditevent].
    rewrite filter_app. cbn [filter]. unfold by_customer_id at 2.
    cbn [new_doc fields CreditEvent.customer_id].
    destruct (String.eqb_spec customer_id other) as [E|_];
      [symmetry in E; contradiction|].
    rewrite app_nil_r. reflexivity.
Qed.

Lemma credit_history_after_topup_witness :
  fst (credit_history "65F0A1B2C3D4E5F601234567"
         (snd (topup t0 alice_id (credit (cents 2500)) demo_db)))
  = fst (credit_history "65F0A1B2C3D4E5F601234567" demo_db).
Proof.
  destruct (topup t0 alice_id (credit (cents 2500)) demo_db) as [o db'] eqn:H.
  assert (Ho : exists r, o = Return r).
  { vm_compute in H. injection H as <- _. eexists. reflexivity. }
  destruct Ho as [r ->]. cbn [snd].
  apply (proj2 (credit_history_after_topup _ _ _ _ _ _ H)).
  discriminate.
Defined.
